(** * The structured agent loop of [structured_tool_agent.py]

    A shallow embedding of [generate_structured_output]
    (src/prompthippo/tool-calling-w-structured-out/structured_tool_agent.py,
    lines 11-103) and the properties of its control flow: how many times the
    model client is called, what is returned on each exit, and how the tool
    calls of a turn are answered.

    The model client and the tools are external collaborators.  They are
    modelled as state transformers over an arbitrary [World]; every [await]
    of the source appends one event to a log, so that the calls of one
    invocation can be counted and inspected.

    A call on a model bound to tools answers with a turn.  The function has
    no handler around its model calls, so a model call that fails (network,
    quota) would end the function with that failure; such failures are not
    part of the development.  A tool, on the other hand, may raise, and the
    structured call of the path without tools may raise as well.

    The function is embedded twice.  The first embedding has tools that
    raise exceptions derived from [Exception] only, which the handler of
    line 89 catches.  The second, in the module [Interruptible], has tools
    that may also raise an exception outside [Exception], which the handler
    lets through; on tools that never do so the two embeddings agree
    ([plain_generate_structured_output]). *)

From Stdlib Require Import List String ZArith Bool Lia.
Import ListNotations.

Local Open Scope string_scope.
Local Open Scope list_scope.

(** ** Data model *)

(** Argument values of a tool call, as decoded from the model's JSON. *)
Inductive Value : Type :=
| VStr (s : string)
| VInt (z : Z).

(** [tool_call["args"]]: a Python dict, kept as an association list.  The
    source only tests it for emptiness and passes it on. *)
Definition Args : Type := list (string * Value).

(** One entry of [response.tool_calls]: the keys ["name"], ["args"], ["id"]. *)
Record ToolCall : Type := mkToolCall {
  call_name : string;
  call_args : Args;
  call_id : string
}.

(** The reply of [bind_tools(...).ainvoke]: a model turn. *)
Record AIMessage : Type := mkAIMessage {
  content : string;
  tool_calls : list ToolCall
}.

Inductive BaseMessage : Type :=
| SystemMessage (text : string)
| HumanMessage (text : string)
| AI (turn : AIMessage)
| ToolMessage (text : string) (tool_call_id : string).

(** Python exceptions that occur in the function.  All three derive from
    [Exception], which is what the handler of lines 89-96 catches; the
    exceptions that it does not catch are those of [BaseExc], further
    down. *)
Inductive PyExc : Type :=
| AssertionError
| Exception (msg : string)
| ValidationError (msg : string).

(** [str(e)] *)
Definition str_exc (e : PyExc) : string :=
  match e with
  | AssertionError => ""
  | Exception msg => msg
  | ValidationError msg => msg
  end.

Inductive Outcome (A : Type) : Type :=
| Return (a : A)
| Raise (e : PyExc).

Arguments Return {A} a.
Arguments Raise {A} e.

(** [args.get(key)] on the association list. *)
Fixpoint dict_get (key : string) (args : Args) : option Value :=
  match args with
  | [] => None
  | (k, v) :: rest => if String.eqb k key then Some v else dict_get key rest
  end.

(** Python's truthiness of a dict, [not args]. *)
Definition dict_is_empty (args : Args) : bool :=
  match args with
  | [] => true
  | _ :: _ => false
  end.

Section Agent.

(** The state of everything outside the function (model service, tool
    back ends) and the type of validated schema instances. *)
Variables (World Instance : Type).

(** A LangChain tool.  [name] is [None] when the object has no attribute
    [name] ([hasattr(tool, "name")], line 79).  [ainvoke] either returns,
    and the payload is [str(tool_result)], or raises. *)
Record Tool : Type := mkTool {
  name : option string;
  ainvoke : Args -> World -> Outcome string * World
}.

(** A Pydantic model class: [structure.__name__] and the validating
    constructor applied to keyword arguments (line 72). *)
Record Structure : Type := mkStructure {
  __name__ : string;
  construct : Args -> Outcome Instance
}.

(** What can be handed to [llm.bind_tools]. *)
Inductive Bindable : Type :=
| BindTool (tool : Tool)
| BindStructure (structure : Structure).

(** The chat model, [ChatOpenAI(model=model_name, temperature=temperature)]:
    - [bound_ainvoke bound messages] is
      [llm.bind_tools(bound, tool_choice="any").ainvoke(messages)] and
      answers with a model turn;
    - [structured_ainvoke structure messages] is
      [llm.with_structured_output(structure).ainvoke(messages)] and answers
      with a validated instance or raises. *)
Record ChatOpenAI : Type := mkChatOpenAI {
  bound_ainvoke : list Bindable -> list BaseMessage -> World -> AIMessage * World;
  structured_ainvoke : Structure -> list BaseMessage -> World -> Outcome Instance * World
}.

(** What the function can hand back to its caller.  Python does not check
    the annotation [-> BaseModel], so both shapes are possible values. *)
Inductive PyValue : Type :=
| Inst (i : Instance)
| Turn (m : AIMessage).

(** ** Effects *)

Inductive Event : Type :=
| StructuredCall (structure : Structure) (messages : list BaseMessage)
| BoundCall (bound : list Bindable) (messages : list BaseMessage) (response : AIMessage)
| ToolInvocation (tool : Tool) (call : ToolCall).

Record St : Type := mkSt {
  world : World;
  log : list Event
}.

Definition M (A : Type) : Type := St -> Outcome A * St.

Definition ret {A} (a : A) : M A := fun st => (Return a, st).

Definition raise {A} (e : PyExc) : M A := fun st => (Raise e, st).

Definition bind {A B} (m : M A) (k : A -> M B) : M B :=
  fun st =>
    match m st with
    | (Return a, st') => k a st'
    | (Raise e, st') => (Raise e, st')
    end.

(** [try: body except Exception as e: handler e] *)
Definition try_except {A} (body : M A) (handler : PyExc -> M A) : M A :=
  fun st =>
    match body st with
    | (Return a, st') => (Return a, st')
    | (Raise e, st') => handler e st'
    end.

Notation "x <- m ;; k" := (bind m (fun x => k))
  (at level 100, m at next level, right associativity).

Definition record (ev : Event) (w : World) (st : St) : St :=
  {| world := w; log := log st ++ [ev] |}.

(** [await llm.bind_tools(bound, tool_choice="any").ainvoke(messages)] *)
Definition await_bound (llm : ChatOpenAI) (bound : list Bindable)
    (messages : list BaseMessage) : M AIMessage :=
  fun st =>
    let (response, w) := bound_ainvoke llm bound messages (world st) in
    (Return response, record (BoundCall bound messages response) w st).

(** [await llm.with_structured_output(structure).ainvoke(messages)] *)
Definition await_structured (llm : ChatOpenAI) (structure : Structure)
    (messages : list BaseMessage) : M Instance :=
  fun st =>
    let (result, w) := structured_ainvoke llm structure messages (world st) in
    (result, record (StructuredCall structure messages) w st).

(** [await tool.ainvoke(tool_call["args"])] *)
Definition await_tool (tool : Tool) (tool_call : ToolCall) : M string :=
  fun st =>
    let (result, w) := ainvoke tool (call_args tool_call) (world st) in
    (result, record (ToolInvocation tool tool_call) w st).

(** ** The function *)

(** Lines 60-63: the first tool call named after the structure. *)
Fixpoint find_structure_tool_call (structure : Structure)
    (calls : list ToolCall) : option ToolCall :=
  match calls with
  | [] => None
  | tool_call :: rest =>
      if String.eqb (call_name tool_call) (__name__ structure)
      then Some tool_call
      else find_structure_tool_call structure rest
  end.

(** Line 79: [hasattr(tool, "name") and tool.name == tool_call["name"]]. *)
Definition tool_matches (tool : Tool) (tool_call : ToolCall) : bool :=
  match name tool with
  | Some n => String.eqb n (call_name tool_call)
  | None => false
  end.

(** Lines 78-96: the search through [tools] for one tool call.  Both the
    success branch and the handler end in [break]. *)
Fixpoint for_tool (tools : list Tool) (tool_call : ToolCall)
    (tool_messages : list BaseMessage) : M (list BaseMessage) :=
  match tools with
  | [] => ret tool_messages
  | tool :: rest =>
      if tool_matches tool tool_call then
        try_except
          (tool_result <- await_tool tool tool_call ;;
           ret (tool_messages ++ [ToolMessage tool_result (call_id tool_call)]))
          (fun e =>
           ret (tool_messages
                  ++ [ToolMessage ("Error: " ++ str_exc e) (call_id tool_call)]))
      else for_tool rest tool_call tool_messages
  end.

(** Lines 76-96: every tool call of the turn, in the order of the turn. *)
Fixpoint for_tool_call (tools : list Tool) (calls : list ToolCall)
    (tool_messages : list BaseMessage) : M (list BaseMessage) :=
  match calls with
  | [] => ret tool_messages
  | tool_call :: rest =>
      tool_messages' <- for_tool tools tool_call tool_messages ;;
      for_tool_call tools rest tool_messages'
  end.

(** How one pass through the body of the [for] loop ends: with a [return]
    out of the function, or with the rebinding of [messages] and
    [response] for the next pass. *)
Inductive Pass : Type :=
| Returns (v : PyValue)
| Continues (messages : list BaseMessage) (response : AIMessage).

Definition malformed_call : PyExc :=
  Exception "Tool call result empty, likely ran out of tokens. Increase `max_tokens`.".

Section Loop.

Variables (llm : ChatOpenAI) (structure : Structure) (tools : list Tool).

(** Line 48: [all_tools = tools + [structure]]. *)
Definition all_tools : list Bindable :=
  map BindTool tools ++ [BindStructure structure].

(** Lines 58-100. *)
Definition loop_body (messages : list BaseMessage) (response : AIMessage)
    : M Pass :=
  match find_structure_tool_call structure (tool_calls response) with
  | Some structure_tool_call =>
      if dict_is_empty (call_args structure_tool_call)
      then raise malformed_call
      else fun st =>
        match construct structure (call_args structure_tool_call) with
        | Return i => (Return (Returns (Inst i)), st)
        | Raise e => (Raise e, st)
        end
  | None =>
      tool_messages <- for_tool_call tools (tool_calls response) [] ;;
      let messages' := messages ++ [AI response] ++ tool_messages in
      response' <- await_bound llm all_tools messages' ;;
      ret (Continues messages' response')
  end.

(** Lines 57-103: [n] passes of the loop, then the forced call on
    [llm_forced_structure] of line 55. *)
Fixpoint for_range (n : nat) (messages : list BaseMessage)
    (response : AIMessage) : M PyValue :=
  match n with
  | O =>
      forced <- await_bound llm [BindStructure structure] messages ;;
      ret (Turn forced)
  | S n' =>
      pass <- loop_body messages response ;;
      match pass with
      | Returns v => ret v
      | Continues messages' response' => for_range n' messages' response'
      end
  end.

End Loop.

(** Lines 36-103.  [tools] is [None] when the argument is omitted. *)
Definition generate_structured_output (llm : ChatOpenAI)
    (messages : list BaseMessage) (structure : Structure)
    (tools : option (list Tool)) (max_executions : Z) : M PyValue :=
  if (max_executions <? 1)%Z then raise AssertionError
  else
    match tools with
    | None | Some [] =>
        result <- await_structured llm structure messages ;;
        ret (Inst result)
    | Some tools =>
        response <- await_bound llm (all_tools structure tools) messages ;;
        for_range llm structure tools (Z.to_nat (max_executions - 1))
          messages response
    end.

End Agent.

Arguments mkTool {World} name ainvoke.
Arguments name {World} t.
Arguments ainvoke {World} t args w.
Arguments mkStructure {Instance} __name__ construct.
Arguments __name__ {Instance} s.
Arguments construct {Instance} s args.
Arguments BindTool {World Instance} tool.
Arguments BindStructure {World Instance} structure.
Arguments mkChatOpenAI {World Instance} bound_ainvoke structured_ainvoke.
Arguments bound_ainvoke {World Instance} c bound messages w.
Arguments structured_ainvoke {World Instance} c structure messages w.
Arguments Inst {Instance} i.
Arguments Turn {Instance} m.
Arguments StructuredCall {World Instance} structure messages.
Arguments BoundCall {World Instance} bound messages response.
Arguments ToolInvocation {World Instance} tool call.
Arguments mkSt {World Instance} world log.
Arguments world {World Instance} s.
Arguments log {World Instance} s.
Arguments ret {World Instance A} a st.
Arguments raise {World Instance A} e st.
Arguments bind {World Instance A B} m k st.
Arguments try_except {World Instance A} body handler st.
Arguments record {World Instance} ev w st.
Arguments await_bound {World Instance} llm bound messages st.
Arguments await_structured {World Instance} llm structure messages st.
Arguments await_tool {World Instance} tool tool_call st.
Arguments find_structure_tool_call {Instance} structure calls.
Arguments tool_matches {World} tool tool_call.
Arguments for_tool {World Instance} tools tool_call tool_messages st.
Arguments for_tool_call {World Instance} tools calls tool_messages st.
Arguments Returns {Instance} v.
Arguments Continues {Instance} messages response.
Arguments all_tools {World Instance} structure tools.
Arguments loop_body {World Instance} llm structure tools messages response st.
Arguments for_range {World Instance} llm structure tools n messages response st.
Arguments generate_structured_output {World Instance}
  llm messages structure tools max_executions st.

(** ** Observations on a run *)

Definition is_model_call {World Instance} (ev : Event World Instance) : bool :=
  match ev with
  | StructuredCall _ _ => true
  | BoundCall _ _ _ => true
  | ToolInvocation _ _ => false
  end.

(** The number of model client calls in a log. *)
Definition model_calls {World Instance} (l : list (Event World Instance)) : nat :=
  List.length (filter is_model_call l).

Definition is_tool_invocation {World Instance} (ev : Event World Instance) : bool :=
  match ev with
  | ToolInvocation _ _ => true
  | _ => false
  end.

(** The number of tool invocations in a log. *)
Definition tool_invocations {World Instance} (l : list (Event World Instance)) : nat :=
  List.length (filter is_tool_invocation l).

(** The correlation id of a tool result; [None] for any other message. *)
Definition answered_id (m : BaseMessage) : option string :=
  match m with
  | ToolMessage _ id => Some id
  | _ => None
  end.


(** Whether some entry of [tools] passes the test of line 79 for the call. *)
Definition registered {World} (tools : list (Tool World)) (tool_call : ToolCall) : bool :=
  existsb (fun tool => tool_matches tool tool_call) tools.

(** The content of the tool result built from what [ainvoke] did: lines 84
    and 92. *)
Definition result_text (r : Outcome string) : string :=
  match r with
  | Return tool_result => tool_result
  | Raise e => ("Error: " ++ str_exc e)%string
  end.

(** The state reached when the first [k] passes of the loop have all ended
    in the rebinding of line 99-100, that is without [return] or [raise];
    [None] when one of them left the function. *)
Fixpoint free_passes {World Instance} (llm : ChatOpenAI World Instance)
    (structure : Structure Instance) (tools : list (Tool World)) (k : nat)
    (messages : list BaseMessage) (response : AIMessage) (st : St World Instance)
    : option (list BaseMessage * AIMessage * St World Instance) :=
  match k with
  | O => Some (messages, response, st)
  | S k' =>
      match loop_body llm structure tools messages response st with
      | (Return (Continues messages' response'), st') =>
          free_passes llm structure tools k' messages' response' st'
      | _ => None
      end
  end.

(** [Inst] applied to the outcome of a constructor or structured call. *)
Definition as_instance {Instance} (r : Outcome Instance) : Outcome (PyValue Instance) :=
  match r with
  | Return i => Return (Inst i)
  | Raise e => Raise e
  end.

(** How a pass ends when line 72 is reached with the given outcome of the
    constructor. *)
Definition as_pass {Instance} (r : Outcome Instance) : Outcome (Pass Instance) :=
  match r with
  | Return i => Return (Returns (Inst i))
  | Raise e => Raise e
  end.

(** ** A concrete environment

    A scripted model client: the world is the list of turns the model will
    produce, consumed from the front, one per call on a bound model.  It is
    used to run the function on explicit inputs. *)

Module Scenario.

Definition World : Type := list AIMessage.

(** A structure with one required integer field [level], [0 < level < 6]
    (the bounds of [reading_level], lines 110-115).  An instance is kept as
    the value of the field. *)
Definition Rating : Structure Z :=
  {| __name__ := "Rating";
     construct := fun args =>
       match dict_get "level" args with
       | Some (VInt z) =>
           if (0 <? z)%Z && (z <? 6)%Z
           then Return z
           else Raise (ValidationError "level")
       | _ => Raise (ValidationError "level")
       end |}.

Definition silent : AIMessage := {| content := ""; tool_calls := [] |}.

Definition scripted : ChatOpenAI World Z :=
  {| bound_ainvoke := fun _ _ script =>
       match script with
       | turn :: script' => (turn, script')
       | [] => (silent, [])
       end;
     structured_ainvoke := fun structure _ script =>
       (construct structure [("level", VInt 3)], script) |}.

Definition reviews : string :=
  "['This book knocked my socks off! It was a difficult but managable read for me as I went into college.', 'Tomorrow and Tomorrow and Tomorrow is a fantastic book for young adults who are looking to improve their reading level.']".

(** Lines 118-136.  A call whose arguments do not carry a string
    [book_title] is rejected by the argument schema of the tool; the
    [print] of line 131 is left out. *)
Definition collect_book_reviews : Tool World :=
  {| name := Some "collect_book_reviews";
     ainvoke := fun args w =>
       match dict_get "book_title" args with
       | Some (VStr _) => (Return reviews, w)
       | _ => (Raise (ValidationError "book_title"), w)
       end |}.

(** A tool whose invocation always raises. *)
Definition always_fails : Tool World :=
  {| name := Some "always_fails";
     ainvoke := fun _ w => (Raise (Exception "service unavailable"), w) |}.

Definition conversation : list BaseMessage :=
  [SystemMessage "You are classifying books based on their first page of text.";
   HumanMessage "Tomorrow, and Tomorrow, and Tomorrow: Chapter 1"].

Definition start (script : list AIMessage) : St World Z :=
  {| world := script; log := [] |}.

Definition ask_reviews (id : string) : ToolCall :=
  {| call_name := "collect_book_reviews";
     call_args := [("book_title", VStr "Tomorrow, and Tomorrow, and Tomorrow")];
     call_id := id |}.

Definition ask_failing (id : string) : ToolCall :=
  {| call_name := "always_fails"; call_args := []; call_id := id |}.

Definition ask_unknown (id : string) : ToolCall :=
  {| call_name := "lookup_author"; call_args := []; call_id := id |}.

Definition submit (args : Args) (id : string) : ToolCall :=
  {| call_name := "Rating"; call_args := args; call_id := id |}.

Definition turn (calls : list ToolCall) : AIMessage :=
  {| content := ""; tool_calls := calls |}.

(** The tools bound for every call inside the loop when the caller
    registers [collect_book_reviews] alone. *)
Definition bound : list (Bindable World Z) :=
  all_tools Rating [collect_book_reviews].

Definition good_args : Args := [("level", VInt 3)].

Definition bad_args : Args := [("level", VInt 9)].

(** The conversation after a turn that asked for the reviews under [id]. *)
Definition with_reviews (id : string) : list BaseMessage :=
  conversation ++ [AI (turn [ask_reviews id]); ToolMessage reviews id].

End Scenario.

(** ** Irregular registrations

    Two objects a caller can put into [tools] beside the tool of the
    source: a second tool under the name of the first, and an object
    without a [name] attribute. *)

Module Irregular.

Definition impostor : Tool Scenario.World :=
  {| name := Some "collect_book_reviews";
     ainvoke := fun _ w => (Return "[]", w) |}.

Definition nameless : Tool Scenario.World :=
  {| name := None;
     ainvoke := fun _ w => (Return "[]", w) |}.

End Irregular.

(** ** Further observations *)

(** The tool that the search of lines 78-96 invokes for a call: the first
    entry of [tools] that passes the test of line 79. *)
Definition first_match {World} (tools : list (Tool World)) (tool_call : ToolCall)
    : option (Tool World) :=
  find (fun tool => tool_matches tool tool_call) tools.

(** The tool invocations that the calls of a turn give rise to, in the order
    of the calls. *)
Definition invocations {World Instance} (tools : list (Tool World))
    (calls : list ToolCall) : list (Event World Instance) :=
  flat_map (fun tool_call =>
              match first_match tools tool_call with
              | Some tool => [ToolInvocation tool tool_call]
              | None => []
              end) calls.

(** The messages that line 99 appends: model turns and tool results. *)
Definition appended_by_loop (m : BaseMessage) : bool :=
  match m with
  | AI _ => true
  | ToolMessage _ _ => true
  | _ => false
  end.

(** A model call whose conversation is [messages] followed by messages that
    the loop appended. *)
Definition extends_conversation {World Instance} (messages : list BaseMessage)
    (ev : Event World Instance) : Prop :=
  match ev with
  | BoundCall _ sent _ | StructuredCall _ sent =>
      exists appended,
        sent = messages ++ appended /\ forallb appended_by_loop appended = true
  | ToolInvocation _ _ => True
  end.

(** The events that a run with registered tools may log: calls on the model
    bound to all tools or to the structure alone, and invocations of the
    first registered tool that matches a call not named after the
    structure. *)
Definition expected_event {World Instance} (structure : Structure Instance)
    (tools : list (Tool World)) (ev : Event World Instance) : Prop :=
  match ev with
  | StructuredCall _ _ => False
  | BoundCall bound _ _ =>
      bound = all_tools structure tools \/ bound = [BindStructure structure]
  | ToolInvocation tool tool_call =>
      first_match tools tool_call = Some tool
      /\ call_name tool_call <> __name__ structure
  end.

(** ** Exceptions outside [Exception]

    [KeyboardInterrupt], [SystemExit] and [asyncio.CancelledError] derive
    from [BaseException] but not from [Exception].  The handler of line 89
    is [except Exception], so when a tool raises one of them the handler
    does not run and the exception leaves the function.  The definitions
    above describe tools that raise exceptions derived from [Exception]
    only; the ones below describe the same function for tools that may
    also raise one of these three. *)

Inductive BaseExc : Type :=
| KeyboardInterrupt
| SystemExit
| CancelledError.

(** How a computation ends: as before, or by an exception outside
    [Exception]. *)
Inductive Ending (A : Type) : Type :=
| Normal (r : Outcome A)
| Escaped (b : BaseExc).

Arguments Normal {A} r.
Arguments Escaped {A} b.

Module Interruptible.

Section Agent.

Variables (World Instance : Type).

(** A tool together with the invocations that an exception outside
    [Exception] cuts short: [interrupted args w] is [Some (b, w')] when the
    invocation on [args] in the world [w] raises [b] and leaves the world
    [w']; when it is [None] the invocation goes as [ainvoke] of [tool_of]
    says. *)
Record AnyTool : Type := mkAnyTool {
  tool_of : Tool World;
  interrupted : Args -> World -> option (BaseExc * World)
}.

Definition MI (A : Type) : Type :=
  St World Instance -> Ending A * St World Instance.

Definition lift {A} (m : M World Instance A) : MI A :=
  fun st => let (r, st') := m st in (Normal r, st').

Definition unit {A} (a : A) : MI A := fun st => (Normal (Return a), st).

Definition throw {A} (e : PyExc) : MI A := fun st => (Normal (Raise e), st).

Definition and_then {A B} (m : MI A) (k : A -> MI B) : MI B :=
  fun st =>
    match m st with
    | (Normal (Return a), st') => k a st'
    | (Normal (Raise e), st') => (Normal (Raise e), st')
    | (Escaped b, st') => (Escaped b, st')
    end.

(** [try: body except Exception as e: handler e]: an exception outside
    [Exception] passes through. *)
Definition except_Exception {A} (body : MI A) (handler : PyExc -> MI A) : MI A :=
  fun st =>
    match body st with
    | (Normal (Return a), st') => (Normal (Return a), st')
    | (Normal (Raise e), st') => handler e st'
    | (Escaped b, st') => (Escaped b, st')
    end.

Notation "x <- m ;; k" := (and_then m (fun x => k))
  (at level 100, m at next level, right associativity).

(** [await tool.ainvoke(tool_call["args"])] *)
Definition await_any_tool (tool : AnyTool) (tool_call : ToolCall) : MI string :=
  fun st =>
    match interrupted tool (call_args tool_call) (world st) with
    | Some (b, w) =>
        (Escaped b, record (ToolInvocation (tool_of tool) tool_call) w st)
    | None => lift (await_tool (tool_of tool) tool_call) st
    end.

(** Lines 78-96. *)
Fixpoint for_tool (tools : list AnyTool) (tool_call : ToolCall)
    (tool_messages : list BaseMessage) : MI (list BaseMessage) :=
  match tools with
  | [] => unit tool_messages
  | tool :: rest =>
      if tool_matches (tool_of tool) tool_call then
        except_Exception
          (tool_result <- await_any_tool tool tool_call ;;
           unit (tool_messages ++ [ToolMessage tool_result (call_id tool_call)]))
          (fun e =>
           unit (tool_messages
                   ++ [ToolMessage ("Error: " ++ str_exc e) (call_id tool_call)]))
      else for_tool rest tool_call tool_messages
  end.

(** Lines 76-96. *)
Fixpoint for_tool_call (tools : list AnyTool) (calls : list ToolCall)
    (tool_messages : list BaseMessage) : MI (list BaseMessage) :=
  match calls with
  | [] => unit tool_messages
  | tool_call :: rest =>
      tool_messages' <- for_tool tools tool_call tool_messages ;;
      for_tool_call tools rest tool_messages'
  end.

Section Loop.

Variables (llm : ChatOpenAI World Instance) (structure : Structure Instance)
          (tools : list AnyTool).

(** Lines 58-100. *)
Definition loop_body (messages : list BaseMessage) (response : AIMessage)
    : MI (Pass Instance) :=
  match find_structure_tool_call structure (tool_calls response) with
  | Some structure_tool_call =>
      if dict_is_empty (call_args structure_tool_call)
      then throw malformed_call
      else fun st =>
        (Normal (as_pass (construct structure (call_args structure_tool_call))), st)
  | None =>
      tool_messages <- for_tool_call tools (tool_calls response) [] ;;
      let messages' := messages ++ [AI response] ++ tool_messages in
      response' <- lift (await_bound llm (all_tools structure (map tool_of tools))
                           messages') ;;
      unit (Continues messages' response')
  end.

(** Lines 57-103. *)
Fixpoint for_range (n : nat) (messages : list BaseMessage)
    (response : AIMessage) : MI (PyValue Instance) :=
  match n with
  | O =>
      forced <- lift (await_bound llm [BindStructure structure] messages) ;;
      unit (Turn forced)
  | S n' =>
      pass <- loop_body messages response ;;
      match pass with
      | Returns v => unit v
      | Continues messages' response' => for_range n' messages' response'
      end
  end.

End Loop.

(** Lines 36-103. *)
Definition generate_structured_output (llm : ChatOpenAI World Instance)
    (messages : list BaseMessage) (structure : Structure Instance)
    (tools : option (list AnyTool)) (max_executions : Z) : MI (PyValue Instance) :=
  if (max_executions <? 1)%Z then throw AssertionError
  else
    match tools with
    | None | Some [] =>
        result <- lift (await_structured llm structure messages) ;;
        unit (Inst result)
    | Some tools =>
        response <- lift (await_bound llm (all_tools structure (map tool_of tools))
                            messages) ;;
        for_range llm structure tools (Z.to_nat (max_executions - 1))
          messages response
    end.

End Agent.

Arguments mkAnyTool {World} tool_of interrupted.
Arguments tool_of {World} a.
Arguments interrupted {World} a args w.
Arguments lift {World Instance A} m st.
Arguments unit {World Instance A} a st.
Arguments throw {World Instance A} e st.
Arguments and_then {World Instance A B} m k st.
Arguments except_Exception {World Instance A} body handler st.
Arguments await_any_tool {World Instance} tool tool_call st.
Arguments for_tool {World Instance} tools tool_call tool_messages st.
Arguments for_tool_call {World Instance} tools calls tool_messages st.
Arguments loop_body {World Instance} llm structure tools messages response st.
Arguments for_range {World Instance} llm structure tools n messages response st.
Arguments generate_structured_output {World Instance}
  llm messages structure tools max_executions st.

(** A tool that no exception outside [Exception] ever cuts short. *)
Definition plain {World} (tool : Tool World) : AnyTool World :=
  {| tool_of := tool; interrupted := fun _ _ => None |}.

(** The tool of a call: the first entry that passes the test of line 79. *)
Definition first_match {World} (tools : list (AnyTool World)) (tool_call : ToolCall)
    : option (AnyTool World) :=
  find (fun tool => tool_matches (tool_of tool) tool_call) tools.

End Interruptible.

(** A tool whose every invocation is cancelled, and a call that asks for it. *)
Module Cancelled.

Definition slow_lookup : Interruptible.AnyTool Scenario.World :=
  {| Interruptible.tool_of :=
       {| name := Some "slow_lookup";
          ainvoke := fun _ w => (Return "[]", w) |};
     Interruptible.interrupted := fun _ w => Some (CancelledError, w) |}.

Definition ask_slow (id : string) : ToolCall :=
  {| call_name := "slow_lookup"; call_args := []; call_id := id |}.

End Cancelled.

(** * Properties *)

Section Facts.

Variables (World Instance : Type).

Implicit Types (llm : ChatOpenAI World Instance) (structure : Structure Instance).
Implicit Types (tools : list (Tool World)) (tool : Tool World).
Implicit Types (st : St World Instance) (evs : list (Event World Instance)).
Implicit Types (messages tool_messages : list BaseMessage).
Implicit Types (response : AIMessage) (calls : list ToolCall) (tool_call : ToolCall).

(** ** Counting events *)

Lemma model_calls_app evs evs' :
  model_calls (evs ++ evs') = model_calls evs + model_calls evs'.
Proof. unfold model_calls. now rewrite filter_app, length_app. Qed.

Lemma tool_invocations_app evs evs' :
  tool_invocations (evs ++ evs') = tool_invocations evs + tool_invocations evs'.
Proof. unfold tool_invocations. now rewrite filter_app, length_app. Qed.

(** ** The search for the tool of one call *)

(** One call is answered by the first tool that passes the test of line
    79, whether that tool returns or raises, and by nothing when no tool
    passes it.  Nothing is ever raised out of the search. *)
Lemma for_tool_eq tools tool_call tool_messages st :
  for_tool tools tool_call tool_messages st =
  match find (fun tool => tool_matches tool tool_call) tools with
  | None => (Return tool_messages, st)
  | Some tool =>
      let (r, w) := ainvoke tool (call_args tool_call) (world st) in
      (Return (tool_messages ++ [ToolMessage (result_text r) (call_id tool_call)]),
       record (ToolInvocation tool tool_call) w st)
  end.
Proof.
  induction tools as [|tool rest IH]; simpl; [reflexivity|].
  destruct (tool_matches tool tool_call); [|exact IH].
  unfold try_except, bind, await_tool, ret.
  destruct (ainvoke tool (call_args tool_call) (world st)) as [[s|e] w];
    reflexivity.
Qed.

Lemma find_none_registered tools tool_call :
  find (fun tool => tool_matches tool tool_call) tools = None <->
  registered tools tool_call = false.
Proof.
  unfold registered.
  induction tools as [|tool rest IH]; simpl; [tauto|].
  destruct (tool_matches tool tool_call); simpl; [split; discriminate|exact IH].
Qed.

Lemma find_some_registered tools tool_call tool :
  find (fun tool => tool_matches tool tool_call) tools = Some tool ->
  registered tools tool_call = true.
Proof.
  intros H. destruct (registered tools tool_call) eqn:E; [reflexivity|].
  apply find_none_registered in E. congruence.
Qed.

(** ** The tool calls of one turn *)


(** Running the calls of a turn never raises.  It appends one tool result
    per call that names a registered tool, in the order of the calls and
    with the id of the call, invokes one tool per such call, and calls
    the model client not at all. *)
Lemma for_tool_call_returns tools calls tool_messages st :
  exists answers evs w,
    for_tool_call tools calls tool_messages st =
      (Return (tool_messages ++ answers), mkSt w (log st ++ evs))
    /\ map answered_id answers =
         map (fun tool_call => Some (call_id tool_call))
             (filter (registered tools) calls)
    /\ model_calls evs = 0
    /\ tool_invocations evs = List.length (filter (registered tools) calls).
Proof.
  revert tool_messages st.
  induction calls as [|tool_call rest IH]; intros; simpl.
  - exists [], [], (world st). rewrite !app_nil_r. destruct st; auto.
  - unfold bind. rewrite for_tool_eq.
    destruct (find (fun tool => tool_matches tool tool_call) tools)
      as [tool|] eqn:F.
    + rewrite (find_some_registered _ _ _ F).
      destruct (ainvoke tool (call_args tool_call) (world st)) as [r w1].
      destruct (IH (tool_messages ++ [ToolMessage (result_text r) (call_id tool_call)])
                   (record (ToolInvocation tool tool_call) w1 st))
        as (answers & evs & w & E & Hids & Hm & Ht).
      exists (ToolMessage (result_text r) (call_id tool_call) :: answers),
             (ToolInvocation tool tool_call :: evs), w.
      rewrite E. simpl. rewrite <- !app_assoc. simpl.
      repeat split; auto.
      * now rewrite Hids.
      * unfold tool_invocations in *. simpl. now rewrite Ht.
    + apply find_none_registered in F. rewrite F.
      apply IH.
Qed.

(** ** One pass of the loop *)

(** A turn with a call named after the structure ends the function in
    this pass, on the first such call, and touches neither the model
    client nor any tool. *)
Lemma loop_body_found llm structure tools messages response st structure_tool_call :
  find_structure_tool_call structure (tool_calls response) = Some structure_tool_call ->
  loop_body llm structure tools messages response st =
    (if dict_is_empty (call_args structure_tool_call)
     then Raise malformed_call
     else as_pass (construct structure (call_args structure_tool_call)), st).
Proof.
  intros F. unfold loop_body. rewrite F.
  destruct (dict_is_empty (call_args structure_tool_call)); [reflexivity|].
  destruct (construct structure (call_args structure_tool_call)); reflexivity.
Qed.

(** A turn without such a call is answered and replayed. *)
Lemma loop_body_free llm structure tools messages response st :
  find_structure_tool_call structure (tool_calls response) = None ->
  exists answers evs w,
    for_tool_call tools (tool_calls response) [] st =
      (Return answers, mkSt w (log st ++ evs))
    /\ map answered_id answers =
         map (fun tool_call => Some (call_id tool_call))
             (filter (registered tools) (tool_calls response))
    /\ model_calls evs = 0
    /\ tool_invocations evs =
         List.length (filter (registered tools) (tool_calls response))
    /\ let messages' := messages ++ [AI response] ++ answers in
       let reply := bound_ainvoke llm (all_tools structure tools) messages' w in
       loop_body llm structure tools messages response st =
         (Return (Continues messages' (fst reply)),
          mkSt (snd reply)
               (log st ++ evs
                  ++ [BoundCall (all_tools structure tools) messages' (fst reply)])).
Proof.
  intros F.
  destruct (for_tool_call_returns tools (tool_calls response) [] st)
    as (answers & evs & w & E & Hids & Hm & Ht).
  simpl in E.
  exists answers, evs, w. repeat split; auto.
  unfold loop_body. rewrite F. unfold bind. rewrite E.
  unfold await_bound, record, ret. simpl.
  destruct (bound_ainvoke llm (all_tools structure tools)
              (messages ++ AI response :: answers) w) as [response' w'].
  simpl. now rewrite <- app_assoc.
Qed.


(** A pass never hands a raw model turn to the caller. *)
Lemma loop_body_returns_instance llm structure tools messages response st v st' :
  loop_body llm structure tools messages response st = (Return (Returns v), st') ->
  exists i, v = Inst i.
Proof.
  intros E.
  destruct (find_structure_tool_call structure (tool_calls response))
    as [structure_tool_call|] eqn:F.
  - rewrite (loop_body_found _ _ _ _ _ _ _ F) in E.
    destruct (dict_is_empty (call_args structure_tool_call)); [discriminate|].
    destruct (construct structure (call_args structure_tool_call)) as [i|e];
      simpl in E; [|discriminate].
    exists i. congruence.
  - destruct (loop_body_free llm structure tools messages response st F)
      as (answers & evs & w & _ & _ & _ & _ & E').
    simpl in E'. rewrite E' in E. discriminate.
Qed.

(** What a pass adds to the log: nothing when it leaves the function,
    tool invocations followed by exactly one model call when it goes on. *)
Lemma loop_body_log llm structure tools messages response st pass st' :
  loop_body llm structure tools messages response st = (pass, st') ->
  match pass with
  | Return (Continues messages' response') =>
      exists evs, model_calls evs = 0
        /\ log st' = log st ++ evs
              ++ [BoundCall (all_tools structure tools) messages' response']
  | _ => st' = st
  end.
Proof.
  intros E.
  destruct (find_structure_tool_call structure (tool_calls response))
    as [structure_tool_call|] eqn:F.
  - rewrite (loop_body_found _ _ _ _ _ _ _ F) in E.
    destruct (dict_is_empty (call_args structure_tool_call)).
    + inversion E. reflexivity.
    + destruct (construct structure (call_args structure_tool_call));
        inversion E; reflexivity.
  - destruct (loop_body_free llm structure tools messages response st F)
      as (answers & evs & w & _ & _ & Hm & _ & E').
    simpl in E'. rewrite E' in E. inversion E. subst. simpl.
    exists evs. auto.
Qed.

(** ** The whole loop *)

Lemma for_range_free_passes llm structure tools k n :
  forall messages response st messages' response' st',
  free_passes llm structure tools k messages response st
    = Some (messages', response', st') ->
  for_range llm structure tools (k + n) messages response st =
  for_range llm structure tools n messages' response' st'.
Proof.
  induction k as [|k IH]; simpl; intros messages response st m' r' st' H.
  - now inversion H.
  - unfold bind.
    destruct (loop_body llm structure tools messages response st)
      as [[[v|m1 r1]|e] st1]; try discriminate.
    now apply IH.
Qed.

Lemma free_passes_calls llm structure tools k :
  forall messages response st messages' response' st',
  free_passes llm structure tools k messages response st
    = Some (messages', response', st') ->
  exists evs, log st' = log st ++ evs /\ model_calls evs = k.
Proof.
  induction k as [|k IH]; simpl; intros messages response st m' r' st' H.
  - inversion H. subst. exists []. now rewrite app_nil_r.
  - destruct (loop_body llm structure tools messages response st)
      as [[[v|m1 r1]|e] st1] eqn:E; try discriminate.
    apply loop_body_log in E. destruct E as (evs1 & Hm1 & L1).
    destruct (IH _ _ _ _ _ _ H) as (evs & L & Hm).
    exists ((evs1 ++ [BoundCall (all_tools structure tools) m1 r1]) ++ evs).
    split.
    + rewrite L, L1. now rewrite <- !app_assoc.
    + rewrite !model_calls_app, Hm1, Hm. reflexivity.
Qed.

(** The loop and the forced call together make at most [n + 1] model
    calls, whatever the model and the tools do. *)
Lemma for_range_calls llm structure tools n :
  forall messages response st,
  exists evs,
    log (snd (for_range llm structure tools n messages response st))
      = log st ++ evs
    /\ model_calls evs <= n + 1.
Proof.
  induction n as [|n IH]; intros messages response st; simpl.
  - unfold bind, await_bound, ret.
    destruct (bound_ainvoke llm [BindStructure structure] messages (world st))
      as [forced w]. simpl.
    eexists. split; [reflexivity|]. unfold model_calls; simpl; lia.
  - unfold bind.
    destruct (loop_body llm structure tools messages response st)
      as [pass st1] eqn:E.
    apply loop_body_log in E.
    destruct pass as [[v|m1 r1]|e].
    + subst. simpl. exists []. rewrite app_nil_r. split; [reflexivity|].
      unfold model_calls; simpl; lia.
    + destruct E as (evs1 & Hm1 & L1).
      destruct (IH m1 r1 st1) as (evs & L & Hm).
      exists ((evs1 ++ [BoundCall (all_tools structure tools) m1 r1]) ++ evs).
      split.
      * rewrite L, L1. now rewrite <- !app_assoc.
      * rewrite !model_calls_app, Hm1. simpl.
        change (model_calls [BoundCall (all_tools structure tools) m1 r1]) with 1.
        lia.
    + subst. simpl. exists []. rewrite app_nil_r. split; [reflexivity|].
      unfold model_calls; simpl; lia.
Qed.

(** A raw model turn can only come out of the forced call of line 103.
    The log then ends with the last call on [llm_with_tools] followed by
    the forced call, both on the same conversation. *)
Lemma for_range_turn llm structure tools n :
  forall messages response st before forced st',
  log st = before ++ [BoundCall (all_tools structure tools) messages response] ->
  for_range llm structure tools n messages response st
    = (Return (Turn forced), st') ->
  exists between last_messages last_response st_last,
    log st_last = before ++ between
       ++ [BoundCall (all_tools structure tools) last_messages last_response]
    /\ (forall r, for_range llm structure tools 0 last_messages r st_last
                   = (Return (Turn forced), st'))
    /\ log st' = log st_last
                   ++ [BoundCall [BindStructure structure] last_messages forced].
Proof.
  induction n as [|n IH]; intros messages response st before forced st' L H.
  - exists [], messages, response, st. simpl. split; [exact L|].
    split; [intros r; exact H|].
    simpl in H. unfold bind, await_bound, ret in H.
    destruct (bound_ainvoke llm [BindStructure structure] messages (world st))
      as [reply w].
    inversion H. subst. reflexivity.
  - simpl in H. unfold bind in H.
    destruct (loop_body llm structure tools messages response st)
      as [[[v|m1 r1]|e] st1] eqn:E; [| |discriminate].
    + destruct (loop_body_returns_instance _ _ _ _ _ _ _ _ E) as [i ->].
      discriminate.
    + apply loop_body_log in E. destruct E as (evs1 & _ & L1).
      destruct (IH m1 r1 st1
                  (before
                     ++ [BoundCall (all_tools structure tools) messages response]
                     ++ evs1) forced st')
        as (between & lm & lr & st_last & La & Hr & Lb).
      * rewrite L1, L. now rewrite <- !app_assoc.
      * exact H.
      * exists ([BoundCall (all_tools structure tools) messages response]
                  ++ evs1 ++ between), lm, lr, st_last.
        split; [|split; assumption].
        rewrite La. now rewrite <- !app_assoc.
Qed.


Lemma budget_passes (budget : Z) k :
  (Z.of_nat k + 1 < budget)%Z ->
  exists n, Z.to_nat (budget - 1) = k + S n.
Proof. intros H. exists (Z.to_nat (budget - 1) - k - 1). lia. Qed.

(** ** The exits of the function *)

(** Lines 41-45: without tools the function is the structured call. *)
Lemma structured_path llm messages structure
    (tools : option (list (Tool World))) budget st :
  (1 <= budget)%Z ->
  tools = None \/ tools = Some [] ->
  let reply := structured_ainvoke llm structure messages (world st) in
  generate_structured_output llm messages structure tools budget st =
    (as_instance (fst reply),
     mkSt (snd reply) (log st ++ [StructuredCall structure messages])).
Proof.
  intros Hb Ht. unfold generate_structured_output.
  replace (budget <? 1)%Z with false by (symmetry; apply Z.ltb_ge; lia).
  assert (E : bind (await_structured llm structure messages)
                (fun result => ret (Inst result)) st =
              (as_instance (fst (structured_ainvoke llm structure messages (world st))),
               mkSt (snd (structured_ainvoke llm structure messages (world st)))
                    (log st ++ [StructuredCall structure messages]))).
  { unfold bind, await_structured, ret, record.
    destruct (structured_ainvoke llm structure messages (world st)) as [[i|e] w];
      reflexivity. }
  destruct Ht as [-> | ->]; exact E.
Qed.

(** C9.  With a budget of at least one and [tools] omitted or empty, the
    function makes exactly one model client call, the structured call on
    the caller's conversation, and hands its result on unchanged: the
    validated instance, or the error the call raised.  The budget plays
    no part in it. *)
Theorem no_tools_one_structured_call llm messages structure
    (tools : option (list (Tool World))) budget st :
  (1 <= budget)%Z ->
  tools = None \/ tools = Some [] ->
  let reply := structured_ainvoke llm structure messages (world st) in
  generate_structured_output llm messages structure tools budget st =
    (as_instance (fst reply),
     mkSt (snd reply) (log st ++ [StructuredCall structure messages]))
  /\ model_calls (log st ++ [StructuredCall structure messages])
     = model_calls (log st) + 1.
Proof.
  intros Hb Ht reply. split.
  - exact (structured_path llm messages structure tools budget st Hb Ht).
  - now rewrite model_calls_app.
Qed.

(** C4, as the code has it.  When the turn examined on a free pass of the
    loop (pass [k + 1] with [k + 1 < budget]) has, as its first call
    named after the structure, one with non-empty arguments, the function
    ends at once with what the constructor of the structure makes of
    those arguments (the instance, or its validation error).  The final
    state is the one in which that turn was received: no further model
    client call is made and no tool requested in the turn is invoked. *)
Theorem first_schema_call_ends_run llm messages structure tool rest budget st
    response0 st0 k messages_k response_k st_k structure_tool_call :
  await_bound llm (all_tools structure (tool :: rest)) messages st
    = (Return response0, st0) ->
  free_passes llm structure (tool :: rest) k messages response0 st0
    = Some (messages_k, response_k, st_k) ->
  (Z.of_nat k + 1 < budget)%Z ->
  find_structure_tool_call structure (tool_calls response_k)
    = Some structure_tool_call ->
  call_args structure_tool_call <> [] ->
  generate_structured_output llm messages structure (Some (tool :: rest)) budget st
    = (as_instance (construct structure (call_args structure_tool_call)), st_k)
  /\ model_calls (log st_k) = model_calls (log st) + (k + 1).
Proof.
  intros E0 Hk Hb F Hargs. split.
  - unfold generate_structured_output.
    replace (budget <? 1)%Z with false by (symmetry; apply Z.ltb_ge; lia).
    unfold bind at 1. rewrite E0.
    destruct (budget_passes budget k Hb) as [n ->].
    rewrite (for_range_free_passes _ _ _ _ _ _ _ _ _ _ _ Hk).
    simpl. unfold bind. rewrite (loop_body_found _ _ _ _ _ _ _ F).
    destruct (call_args structure_tool_call) as [|binding args]; [congruence|].
    simpl.
    destruct (construct structure (binding :: args)); reflexivity.
  - destruct (free_passes_calls _ _ _ _ _ _ _ _ _ _ Hk) as (evs & L & Hm).
    unfold await_bound in E0.
    destruct (bound_ainvoke llm (all_tools structure (tool :: rest)) messages
                (world st)) as [r w].
    inversion E0. subst. rewrite L. simpl.
    rewrite !model_calls_app.
    change (model_calls [BoundCall (all_tools structure (tool :: rest)) messages response0])
      with 1.
    lia.
Qed.

(** C8, as the code has it.  When the turn examined on a free pass of the
    loop has, as its first call named after the structure, one with empty
    arguments, the function raises the exception of line 67 in the state
    in which that turn was received: nothing is retried and no further
    model client call is made. *)
Theorem empty_schema_call_raises llm messages structure tool rest budget st
    response0 st0 k messages_k response_k st_k structure_tool_call :
  await_bound llm (all_tools structure (tool :: rest)) messages st
    = (Return response0, st0) ->
  free_passes llm structure (tool :: rest) k messages response0 st0
    = Some (messages_k, response_k, st_k) ->
  (Z.of_nat k + 1 < budget)%Z ->
  find_structure_tool_call structure (tool_calls response_k)
    = Some structure_tool_call ->
  call_args structure_tool_call = [] ->
  generate_structured_output llm messages structure (Some (tool :: rest)) budget st
    = (Raise malformed_call, st_k)
  /\ model_calls (log st_k) = model_calls (log st) + (k + 1).
Proof.
  intros E0 Hk Hb F Hargs. split.
  - unfold generate_structured_output.
    replace (budget <? 1)%Z with false by (symmetry; apply Z.ltb_ge; lia).
    unfold bind at 1. rewrite E0.
    destruct (budget_passes budget k Hb) as [n ->].
    rewrite (for_range_free_passes _ _ _ _ _ _ _ _ _ _ _ Hk).
    simpl. unfold bind. rewrite (loop_body_found _ _ _ _ _ _ _ F), Hargs.
    reflexivity.
  - destruct (free_passes_calls _ _ _ _ _ _ _ _ _ _ Hk) as (evs & L & Hm).
    unfold await_bound in E0.
    destruct (bound_ainvoke llm (all_tools structure (tool :: rest)) messages
                (world st)) as [r w].
    inversion E0. subst. rewrite L. simpl.
    rewrite !model_calls_app.
    change (model_calls [BoundCall (all_tools structure (tool :: rest)) messages response0])
      with 1.
    lia.
Qed.

(** C10.  Whenever the function hands back the turn of the forced call,
    the log ends with the last call on the model bound to all tools
    followed by the forced call, and both received the same conversation:
    the turn [last_response] that the former produced was not appended.
    It was not examined either, since at that point the function returns
    the same whatever the pending response is. *)
Theorem forced_call_omits_last_turn llm messages structure
    (tools : option (list (Tool World))) budget st forced st' :
  generate_structured_output llm messages structure tools budget st
    = (Return (Turn forced), st') ->
  exists registered_tools before last_messages last_response st_last,
    tools = Some registered_tools
    /\ log st_last = log st ++ before
         ++ [BoundCall (all_tools structure registered_tools)
               last_messages last_response]
    /\ (forall response,
          for_range llm structure registered_tools 0 last_messages response st_last
            = (Return (Turn forced), st'))
    /\ log st' = log st_last
         ++ [BoundCall [BindStructure structure] last_messages forced].
Proof.
  unfold generate_structured_output. intros H.
  destruct (budget <? 1)%Z; [discriminate|].
  assert (S : forall st1, bind (await_structured llm structure messages)
                (fun result => ret (Inst result)) st
              <> (Return (Turn forced), st1)).
  { intros st1. unfold bind, await_structured, ret.
    destruct (structured_ainvoke llm structure messages (world st)) as [[i|e] w];
      discriminate. }
  destruct tools as [[|tool rest]|]; try (now apply S in H).
  unfold bind at 1 in H. unfold await_bound at 1 in H.
  destruct (bound_ainvoke llm (all_tools structure (tool :: rest)) messages
              (world st)) as [response0 w0] eqn:E0.
  destruct (for_range_turn llm structure (tool :: rest) _ messages response0
              (record (BoundCall (all_tools structure (tool :: rest))
                         messages response0) w0 st)
              (log st) forced st' eq_refl H)
    as (between & lm & lr & st_last & La & Hr & Lb).
  exists (tool :: rest), between, lm, lr, st_last. auto.
Qed.

(** ** The tool results of a turn *)



(** ** How many model client calls *)

(** On the path through all passes of the loop the function calls the
    model client once before the loop, once per pass and once more for
    the forced call: one call more than the budget. *)
Lemma forced_completion_calls llm messages structure tool rest budget st
    response0 st0 messages' response' st' :
  (1 <= budget)%Z ->
  await_bound llm (all_tools structure (tool :: rest)) messages st
    = (Return response0, st0) ->
  free_passes llm structure (tool :: rest) (Z.to_nat (budget - 1))
    messages response0 st0 = Some (messages', response', st') ->
  let reply := bound_ainvoke llm [BindStructure structure] messages' (world st') in
  generate_structured_output llm messages structure (Some (tool :: rest)) budget st
    = (Return (Turn (fst reply)),
       mkSt (snd reply)
            (log st' ++ [BoundCall [BindStructure structure] messages' (fst reply)]))
  /\ model_calls
       (log st' ++ [BoundCall [BindStructure structure] messages' (fst reply)])
     = model_calls (log st) + Z.to_nat budget + 1.
Proof.
  intros Hb E0 Hk reply. split.
  - unfold generate_structured_output.
    replace (budget <? 1)%Z with false by (symmetry; apply Z.ltb_ge; lia).
    unfold bind at 1. rewrite E0.
    rewrite <- (Nat.add_0_r (Z.to_nat (budget - 1))).
    rewrite (for_range_free_passes _ _ _ _ _ _ _ _ _ _ _ Hk).
    simpl. unfold bind, await_bound, ret, record. subst reply.
    destruct (bound_ainvoke llm [BindStructure structure] messages' (world st'));
      reflexivity.
  - destruct (free_passes_calls _ _ _ _ _ _ _ _ _ _ Hk) as (evs & L & Hm).
    unfold await_bound in E0.
    destruct (bound_ainvoke llm (all_tools structure (tool :: rest)) messages
                (world st)) as [r w].
    inversion E0. subst st0 r. rewrite L. simpl.
    rewrite !model_calls_app, Hm.
    change (model_calls [BoundCall (all_tools structure (tool :: rest)) messages response0])
      with 1.
    change (model_calls [BoundCall [BindStructure structure] messages' (fst reply)])
      with 1.
    lia.
Qed.

(** On every path the function makes at most one model client call more
    than the budget. *)
Lemma model_calls_at_most_budget_plus_one llm messages structure
    (tools : option (list (Tool World))) budget st :
  (1 <= budget)%Z ->
  exists evs,
    log (snd (generate_structured_output llm messages structure tools budget st))
      = log st ++ evs
    /\ model_calls evs <= Z.to_nat budget + 1.
Proof.
  intros Hb.
  destruct tools as [[|tool rest]|].
  2: { unfold generate_structured_output.
       replace (budget <? 1)%Z with false by (symmetry; apply Z.ltb_ge; lia).
       unfold bind at 1, await_bound at 1.
       destruct (bound_ainvoke llm (all_tools structure (tool :: rest)) messages
                   (world st)) as [response0 w0].
       destruct (for_range_calls llm structure (tool :: rest)
                   (Z.to_nat (budget - 1)) messages response0
                   (record (BoundCall (all_tools structure (tool :: rest))
                              messages response0) w0 st))
         as (evs & L & Hm).
       exists ([BoundCall (all_tools structure (tool :: rest)) messages response0]
                 ++ evs).
       split.
       - rewrite L. simpl. now rewrite <- app_assoc.
       - rewrite model_calls_app.
         change (model_calls [BoundCall (all_tools structure (tool :: rest)) messages response0])
           with 1.
         lia. }
  all: exists [StructuredCall structure messages];
    (split; [|unfold model_calls; simpl; lia]).
  - rewrite (structured_path llm messages structure (Some []) budget st Hb);
      auto.
  - rewrite (structured_path llm messages structure None budget st Hb);
      auto.
Qed.

End Facts.

(** * Runs on explicit inputs *)

Import Scenario.

(** C1.  With a budget of one and one registered tool the function calls
    the model client twice: once on the model bound to all tools, whose
    turn is then dropped, and once for the forced call.  The claimed bound
    of [budget] calls is exceeded. *)
Theorem budget_one_makes_two_calls :
  let first := turn [ask_reviews "c1"] in
  let last := turn [submit good_args "c2"] in
  let run := generate_structured_output scripted conversation Rating
               (Some [collect_book_reviews]) 1 (start [first; last]) in
  log (snd run) = [BoundCall bound conversation first;
                   BoundCall [BindStructure Rating] conversation last]
  /\ model_calls (log (snd run)) = 2.
Proof. split; reflexivity. Qed.

(** C2.  On the forced path the function hands back the model turn of the
    forced call as it came, not an instance of the structure: here a turn
    whose arguments the constructor of the structure rejects. *)
Theorem forced_result_is_raw_turn :
  let first := turn [ask_reviews "c1"] in
  let last := turn [submit bad_args "c2"] in
  fst (generate_structured_output scripted conversation Rating
         (Some [collect_book_reviews]) 1 (start [first; last]))
    = Return (Turn last)
  /\ construct Rating bad_args = Raise (ValidationError "level").
Proof. split; reflexivity. Qed.

(** C3.  With a budget of two and a model that asks for the tool on both
    turns inside the loop, the function makes exactly one forced call,
    bound to the structure alone, and returns its turn, but the calls add
    up to three, not two. *)
Theorem forced_path_makes_budget_plus_one_calls :
  let first := turn [ask_reviews "c1"] in
  let second := turn [ask_reviews "c2"] in
  let last := turn [submit good_args "c3"] in
  let run := generate_structured_output scripted conversation Rating
               (Some [collect_book_reviews]) 2 (start [first; second; last]) in
  find_structure_tool_call Rating (tool_calls first) = None
  /\ run = (Return (Turn last),
            mkSt []
              [BoundCall bound conversation first;
               ToolInvocation collect_book_reviews (ask_reviews "c1");
               BoundCall bound (with_reviews "c1") second;
               BoundCall [BindStructure Rating] (with_reviews "c1") last])
  /\ model_calls (log (snd run)) = 3.
Proof. repeat split; reflexivity. Qed.

(** C9 at the example of the specification: no tools, a budget of five. *)
Lemma no_tools_one_structured_call_witness :
  generate_structured_output scripted conversation Rating (Some []) 5 (start [])
    = (Return (Inst 3%Z), mkSt [] [StructuredCall Rating conversation])
  /\ model_calls ([] ++ [StructuredCall (World := World) Rating conversation]) = 0 + 1.
Proof.
  apply (no_tools_one_structured_call World Z scripted conversation Rating
           (Some []) 5 (start [])).
  - lia.
  - right. reflexivity.
Defined.

(** C4 refuted as stated.  First run: the turn of the first pass holds a
    call named after the structure with non-empty arguments, yet the
    function does not return the instance built from them; it raises,
    because an earlier call of the same name in the turn has empty
    arguments.  Second run: the only call named after the structure has
    non-empty arguments that the constructor rejects; the function raises
    the validation error of the constructor instead of returning an
    instance. *)
Lemma later_schema_call_not_used :
  let answer := submit good_args "c2" in
  let first := turn [submit [] "c1"; answer] in
  let run := generate_structured_output scripted conversation Rating
               (Some [collect_book_reviews]) 2 (start [first]) in
  let rejected := generate_structured_output scripted conversation Rating
               (Some [collect_book_reviews]) 2 (start [turn [submit bad_args "c1"]]) in
  (In answer (tool_calls first)
   /\ call_name answer = __name__ Rating
   /\ call_args answer <> []
   /\ fst run = Raise malformed_call
   /\ fst run <> as_instance (construct Rating (call_args answer)))
  /\ (bad_args <> []
      /\ fst rejected = Raise (ValidationError "level")
      /\ forall i, fst rejected <> Return (Inst i)).
Proof.
  cbv zeta. repeat split.
  - right. left. reflexivity.
  - discriminate.
  - discriminate.
  - discriminate.
  - discriminate.
Qed.

(** C4 on a run: the second turn names an unknown tool, then the structure,
    then the registered tool; the function returns the instance and stops
    in the state in which that turn arrived. *)
Lemma first_schema_call_ends_run_witness :
  let first := turn [ask_reviews "c1"] in
  let second := turn [ask_unknown "c2"; submit good_args "c3"; ask_reviews "c4"] in
  let arrived :=
    mkSt []
      [BoundCall bound conversation first;
       ToolInvocation collect_book_reviews (ask_reviews "c1");
       BoundCall bound (with_reviews "c1") second] in
  generate_structured_output scripted conversation Rating
    (Some [collect_book_reviews]) 3 (start [first; second])
    = (Return (Inst 3%Z), arrived)
  /\ model_calls (log arrived) = 0 + (1 + 1).
Proof.
  cbv zeta.
  apply (first_schema_call_ends_run World Z scripted conversation Rating
           collect_book_reviews [] 3
           (start [turn [ask_reviews "c1"];
                   turn [ask_unknown "c2"; submit good_args "c3"; ask_reviews "c4"]])
           (turn [ask_reviews "c1"])
           (mkSt [turn [ask_unknown "c2"; submit good_args "c3"; ask_reviews "c4"]]
                 [BoundCall bound conversation (turn [ask_reviews "c1"])])
           1 (with_reviews "c1")
           (turn [ask_unknown "c2"; submit good_args "c3"; ask_reviews "c4"])
           _ (submit good_args "c3")).
  - reflexivity.
  - reflexivity.
  - lia.
  - reflexivity.
  - discriminate.
Defined.

(** C8 refuted as stated: the turn of the first pass holds a call named
    after the structure with empty arguments, yet nothing is raised; the
    function returns the instance built from an earlier call of the same
    name in the turn. *)
Lemma later_empty_schema_call_not_raised :
  let empty := submit [] "c2" in
  let first := turn [submit good_args "c1"; empty] in
  let run := generate_structured_output scripted conversation Rating
               (Some [collect_book_reviews]) 2 (start [first]) in
  In empty (tool_calls first)
  /\ call_name empty = __name__ Rating
  /\ call_args empty = []
  /\ fst run = Return (Inst 3%Z)
  /\ fst run <> Raise malformed_call.
Proof.
  cbv zeta. repeat split.
  - right. left. reflexivity.
  - discriminate.
Qed.

(** The turn that is never examined.  With a budget of one the first turn
    carries the structure with no arguments; nothing is raised and the
    forced call is made.  This is the dropped turn of C1 and C10, not the
    choice of the first call of C8. *)
Example unexamined_turn_is_not_checked :
  let first := turn [submit [] "c1"] in
  let last := turn [submit good_args "c2"] in
  generate_structured_output scripted conversation Rating
    (Some [collect_book_reviews]) 1 (start [first; last])
    = (Return (Turn last),
       mkSt [] [BoundCall bound conversation first;
                BoundCall [BindStructure Rating] conversation last]).
Proof. reflexivity. Qed.

(** C8 on a run: the second turn carries the structure with no arguments. *)
Lemma empty_schema_call_raises_witness :
  let first := turn [ask_reviews "c1"] in
  let second := turn [ask_reviews "c2"; submit [] "c3"] in
  let arrived :=
    mkSt []
      [BoundCall bound conversation first;
       ToolInvocation collect_book_reviews (ask_reviews "c1");
       BoundCall bound (with_reviews "c1") second] in
  generate_structured_output scripted conversation Rating
    (Some [collect_book_reviews]) 3 (start [first; second])
    = (Raise malformed_call, arrived)
  /\ model_calls (log arrived) = 0 + (1 + 1).
Proof.
  cbv zeta.
  apply (empty_schema_call_raises World Z scripted conversation Rating
           collect_book_reviews [] 3
           (start [turn [ask_reviews "c1"]; turn [ask_reviews "c2"; submit [] "c3"]])
           (turn [ask_reviews "c1"])
           (mkSt [turn [ask_reviews "c2"; submit [] "c3"]]
                 [BoundCall bound conversation (turn [ask_reviews "c1"])])
           1 (with_reviews "c1")
           (turn [ask_reviews "c2"; submit [] "c3"])
           _ (submit [] "c3")).
  - reflexivity.
  - reflexivity.
  - lia.
  - reflexivity.
  - reflexivity.
Defined.




(** C10 on the run with a budget of two: the turn [second] is produced by
    the call inside the loop and is missing from what the forced call
    receives. *)
Lemma forced_call_omits_last_turn_witness :
  let first := turn [ask_reviews "c1"] in
  let second := turn [ask_reviews "c2"] in
  let last := turn [submit good_args "c3"] in
  let st := start [first; second; last] in
  let st' :=
    mkSt []
      [BoundCall bound conversation first;
       ToolInvocation collect_book_reviews (ask_reviews "c1");
       BoundCall bound (with_reviews "c1") second;
       BoundCall [BindStructure Rating] (with_reviews "c1") last] in
  exists registered_tools before last_messages last_response st_last,
    Some [collect_book_reviews] = Some registered_tools
    /\ log st_last = log st ++ before
         ++ [BoundCall (all_tools Rating registered_tools) last_messages last_response]
    /\ (forall response,
          for_range scripted Rating registered_tools 0 last_messages response st_last
            = (Return (Turn last), st'))
    /\ log st' = log st_last
         ++ [BoundCall [BindStructure Rating] last_messages last].
Proof.
  cbv zeta.
  apply (forced_call_omits_last_turn World Z scripted conversation Rating
           (Some [collect_book_reviews]) 2
           (start [turn [ask_reviews "c1"]; turn [ask_reviews "c2"];
                   turn [submit good_args "c3"]])).
  reflexivity.
Defined.

(** * Further properties of the function *)

Section Coverage.

Variables (World Instance : Type).

Implicit Types (llm : ChatOpenAI World Instance) (structure : Structure Instance).
Implicit Types (tools : list (Tool World)) (tool : Tool World).
Implicit Types (st : St World Instance) (evs : list (Event World Instance)).
Implicit Types (messages tool_messages : list BaseMessage).
Implicit Types (response : AIMessage) (calls : list ToolCall) (tool_call : ToolCall).

(** ** The guard of line 36 *)

(** A budget below one fails the assertion of line 36 before anything else
    happens: whether or not tools are given, no model client call and no
    tool invocation is made. *)
Theorem budget_below_one_asserts llm messages structure
    (tools : option (list (Tool World))) budget st :
  (budget < 1)%Z ->
  generate_structured_output llm messages structure tools budget st
    = (Raise AssertionError, st).
Proof.
  intros H. unfold generate_structured_output.
  replace (budget <? 1)%Z with true by (symmetry; apply Z.ltb_lt; exact H).
  reflexivity.
Qed.

(** ** The search for the call named after the structure *)

(** Lines 60-63 pick the first call of the turn whose name is that of the
    structure: every call before the one found has another name, and when
    none is found no call of the turn has the name. *)
Theorem structure_call_is_first_match structure calls :
  match find_structure_tool_call structure calls with
  | Some structure_tool_call =>
      exists before after,
        calls = before ++ structure_tool_call :: after
        /\ call_name structure_tool_call = __name__ structure
        /\ Forall (fun c => call_name c <> __name__ structure) before
  | None => Forall (fun c => call_name c <> __name__ structure) calls
  end.
Proof.
  induction calls as [|c calls IH]; simpl; [constructor|].
  destruct (String.eqb_spec (call_name c) (__name__ structure)) as [E|N].
  - exists [], calls. auto.
  - destruct (find_structure_tool_call structure calls) as [found|].
    + destruct IH as (before & after & -> & Hn & Hb).
      exists (c :: before), after. auto.
    + constructor; assumption.
Qed.

(** ** Which tool is invoked *)

Lemma first_match_app tools tools' tool_call :
  first_match (tools ++ tools') tool_call =
  match first_match tools tool_call with
  | Some tool => Some tool
  | None => first_match tools' tool_call
  end.
Proof.
  unfold first_match.
  induction tools as [|tool rest IH]; simpl; [reflexivity|].
  destruct (tool_matches tool tool_call); [reflexivity|exact IH].
Qed.

(** A tool that is never the first match of a call can be taken out of the
    list without any effect on the calls of a turn. *)
Lemma for_tool_call_without tools_before tool tools_after :
  (forall tool_call,
      tool_matches tool tool_call = true ->
      first_match tools_before tool_call <> None) ->
  forall calls tool_messages st,
  for_tool_call (tools_before ++ tool :: tools_after) calls tool_messages st
    = for_tool_call (tools_before ++ tools_after) calls tool_messages st.
Proof.
  intros H.
  assert (F : forall tool_call,
             first_match (tools_before ++ tool :: tools_after) tool_call
             = first_match (tools_before ++ tools_after) tool_call).
  { intros tool_call. rewrite !first_match_app.
    destruct (first_match tools_before tool_call) eqn:E; [reflexivity|].
    unfold first_match at 1. simpl.
    destruct (tool_matches tool tool_call) eqn:T; [|reflexivity].
    apply H in T. congruence. }
  induction calls as [|tool_call rest IH]; intros tool_messages st; simpl;
    [reflexivity|].
  unfold bind. rewrite !for_tool_eq.
  fold (first_match (tools_before ++ tool :: tools_after) tool_call).
  fold (first_match (tools_before ++ tools_after) tool_call).
  rewrite F.
  destruct (first_match (tools_before ++ tools_after) tool_call) as [t|].
  - destruct (ainvoke t (call_args tool_call) (world st)). apply IH.
  - apply IH.
Qed.

(** When two registered tools carry the same name, the later one is never
    invoked: the calls of a turn run as if it were not in the list. *)
Theorem shadowed_tool_never_invoked tools_before earlier tool tools_after n
    calls tool_messages st :
  In earlier tools_before ->
  name earlier = Some n ->
  name tool = Some n ->
  for_tool_call (tools_before ++ tool :: tools_after) calls tool_messages st
    = for_tool_call (tools_before ++ tools_after) calls tool_messages st.
Proof.
  intros Hin He Ht. apply for_tool_call_without.
  intros tool_call T. unfold tool_matches in T. rewrite Ht in T.
  unfold first_match.
  destruct (find (fun t => tool_matches t tool_call) tools_before) eqn:F;
    [discriminate|].
  exfalso.
  apply (find_none _ _ F) in Hin. unfold tool_matches in Hin.
  rewrite He in Hin. congruence.
Qed.

(** A registered object without a [name] attribute is never invoked: the
    calls of a turn run as if it were not in the list. *)
Theorem nameless_tool_never_invoked tools_before tool tools_after
    calls tool_messages st :
  name tool = None ->
  for_tool_call (tools_before ++ tool :: tools_after) calls tool_messages st
    = for_tool_call (tools_before ++ tools_after) calls tool_messages st.
Proof.
  intros Hn. apply for_tool_call_without.
  intros tool_call T. unfold tool_matches in T. rewrite Hn in T. discriminate.
Qed.

(** ** The shape of a pass and of a run *)

Lemma no_structure_call_names structure calls :
  find_structure_tool_call structure calls = None ->
  Forall (fun c => call_name c <> __name__ structure) calls.
Proof.
  induction calls as [|c calls IH]; simpl; intros H; [constructor|].
  destruct (String.eqb_spec (call_name c) (__name__ structure)) as [E|N];
    [discriminate|].
  constructor; auto.
Qed.

(** The calls of a turn log exactly the invocations of their first matching
    tools, and append tool results only. *)
Lemma for_tool_call_log tools calls :
  forall tool_messages st,
  exists answers w,
    for_tool_call tools calls tool_messages st =
      (Return (tool_messages ++ answers),
       mkSt w (log st ++ invocations tools calls))
    /\ forallb appended_by_loop answers = true.
Proof.
  induction calls as [|tool_call rest IH]; intros tool_messages st; simpl.
  - exists [], (world st). rewrite !app_nil_r. destruct st; auto.
  - unfold bind. rewrite for_tool_eq.
    fold (first_match tools tool_call).
    destruct (first_match tools tool_call) as [tool|].
    + destruct (ainvoke tool (call_args tool_call) (world st)) as [r w1].
      destruct (IH (tool_messages ++ [ToolMessage (result_text r) (call_id tool_call)])
                   (record (ToolInvocation tool tool_call) w1 st))
        as (answers & w & E & Ha).
      exists (ToolMessage (result_text r) (call_id tool_call) :: answers), w.
      rewrite E. simpl. rewrite <- !app_assoc. simpl. auto.
    + apply IH.
Qed.

Lemma for_range_found llm structure tools n messages response st structure_tool_call :
  find_structure_tool_call structure (tool_calls response) = Some structure_tool_call ->
  for_range llm structure tools (S n) messages response st =
    (if dict_is_empty (call_args structure_tool_call)
     then Raise malformed_call
     else as_instance (construct structure (call_args structure_tool_call)), st).
Proof.
  intros F. simpl. unfold bind. rewrite (loop_body_found _ _ _ _ _ _ _ _ _ F).
  destruct (dict_is_empty (call_args structure_tool_call)); [reflexivity|].
  destruct (construct structure (call_args structure_tool_call)); reflexivity.
Qed.

Lemma for_range_pass llm structure tools messages response st :
  find_structure_tool_call structure (tool_calls response) = None ->
  exists answers response' w,
    forallb appended_by_loop answers = true
    /\ forall n,
       for_range llm structure tools (S n) messages response st =
       for_range llm structure tools n (messages ++ [AI response] ++ answers) response'
         (mkSt w (log st ++ invocations tools (tool_calls response)
                    ++ [BoundCall (all_tools structure tools)
                          (messages ++ [AI response] ++ answers) response'])).
Proof.
  intros F.
  destruct (for_tool_call_log tools (tool_calls response) [] st)
    as (answers & w & E & Ha).
  simpl in E.
  destruct (bound_ainvoke llm (all_tools structure tools)
              (messages ++ [AI response] ++ answers) w) as [response' w'] eqn:B.
  exists answers, response', w'. split; [exact Ha|]. intros n.
  simpl. unfold bind at 1. unfold loop_body. rewrite F.
  unfold bind. rewrite E. unfold await_bound, record, ret. simpl in *.
  rewrite B. simpl. now rewrite <- app_assoc.
Qed.

Lemma generate_with_tools llm messages structure tool rest budget st :
  (1 <= budget)%Z ->
  generate_structured_output llm messages structure (Some (tool :: rest)) budget st =
    let reply := bound_ainvoke llm (all_tools structure (tool :: rest)) messages
                   (world st) in
    for_range llm structure (tool :: rest) (Z.to_nat (budget - 1)) messages (fst reply)
      (mkSt (snd reply)
            (log st ++ [BoundCall (all_tools structure (tool :: rest)) messages
                          (fst reply)])).
Proof.
  intros Hb. unfold generate_structured_output.
  replace (budget <? 1)%Z with false by (symmetry; apply Z.ltb_ge; lia).
  unfold bind, await_bound, record.
  destruct (bound_ainvoke llm (all_tools structure (tool :: rest)) messages (world st));
    reflexivity.
Qed.


(** ** What a run logs *)


Lemma invocations_expected structure tools calls :
  Forall (fun c => call_name c <> __name__ structure) calls ->
  Forall (expected_event structure tools) (invocations tools calls).
Proof.
  unfold invocations.
  induction 1 as [|c calls Hc _ IH]; simpl; [constructor|].
  apply Forall_app. split; [|exact IH].
  destruct (first_match tools c) eqn:E; constructor; [|constructor].
  simpl. auto.
Qed.

Lemma for_range_expected llm structure tools n :
  forall messages response st,
  exists evs,
    log (snd (for_range llm structure tools n messages response st)) = log st ++ evs
    /\ Forall (expected_event structure tools) evs.
Proof.
  induction n as [|n IH]; intros messages response st.
  - simpl. unfold bind, await_bound, ret, record.
    destruct (bound_ainvoke llm [BindStructure structure] messages (world st))
      as [forced w]. simpl.
    eexists. split; [reflexivity|]. constructor; [|constructor]. simpl. auto.
  - destruct (find_structure_tool_call structure (tool_calls response))
      as [found|] eqn:F.
    + rewrite (for_range_found _ _ _ _ _ _ _ _ F). simpl.
      exists []. rewrite app_nil_r. auto.
    + destruct (for_range_pass llm structure tools messages response st F)
        as (answers & response' & w & _ & E).
      rewrite E.
      destruct (IH (messages ++ [AI response] ++ answers) response'
                  (mkSt w (log st ++ invocations tools (tool_calls response)
                             ++ [BoundCall (all_tools structure tools)
                                   (messages ++ [AI response] ++ answers) response'])))
        as (evs & L & Hev).
      rewrite L. simpl.
      exists (invocations tools (tool_calls response)
                ++ [BoundCall (all_tools structure tools)
                      (messages ++ [AI response] ++ answers) response'] ++ evs).
      split; [now rewrite <- !app_assoc|].
      apply Forall_app. split.
      * apply invocations_expected, no_structure_call_names, F.
      * constructor; [simpl; auto|exact Hev].
Qed.

(** A run with registered tools never makes the structured call of line
    43.  Each of its model calls is bound either to all tools and the
    structure or to the structure alone, never to anything else; and each
    tool invocation is that of the first registered tool matching a call
    whose name is not that of the structure, so a tool that carries the
    name of the structure is never invoked. *)
Theorem run_logs_expected_events llm messages structure tool rest budget st :
  exists evs,
    log (snd (generate_structured_output llm messages structure
                (Some (tool :: rest)) budget st)) = log st ++ evs
    /\ Forall (expected_event structure (tool :: rest)) evs.
Proof.
  destruct (Z.ltb_spec budget 1) as [Hlt|Hge].
  - unfold generate_structured_output.
    replace (budget <? 1)%Z with true by (symmetry; apply Z.ltb_lt; exact Hlt).
    simpl. exists []. rewrite app_nil_r. auto.
  - rewrite (generate_with_tools _ _ _ _ _ _ _ Hge). cbv zeta.
    destruct (bound_ainvoke llm (all_tools structure (tool :: rest)) messages (world st))
      as [response0 w0]. cbn [fst snd].
    destruct (for_range_expected llm structure (tool :: rest) (Z.to_nat (budget - 1))
                messages response0
                (mkSt w0 (log st ++ [BoundCall (all_tools structure (tool :: rest))
                                       messages response0])))
      as (evs & L & Hev).
    rewrite L. simpl.
    exists ([BoundCall (all_tools structure (tool :: rest)) messages response0] ++ evs).
    split; [now rewrite <- app_assoc|].
    constructor; [simpl; auto|exact Hev].
Qed.

Lemma extends_conversation_longer messages appended ev :
  forallb appended_by_loop appended = true ->
  extends_conversation (World := World) (Instance := Instance)
    (messages ++ appended) ev ->
  extends_conversation messages ev.
Proof.
  intros Ha.
  assert (G : forall sent,
             (exists more, sent = (messages ++ appended) ++ more
                           /\ forallb appended_by_loop more = true) ->
             exists more, sent = messages ++ more
                          /\ forallb appended_by_loop more = true).
  { intros sent (more & -> & Hm). exists (appended ++ more).
    split; [now rewrite app_assoc|].
    rewrite forallb_app, Ha, Hm. reflexivity. }
  destruct ev; simpl; auto.
Qed.

Lemma for_range_extends llm structure tools n :
  forall messages response st,
  exists evs,
    log (snd (for_range llm structure tools n messages response st)) = log st ++ evs
    /\ Forall (extends_conversation messages) evs.
Proof.
  induction n as [|n IH]; intros messages response st.
  - simpl. unfold bind, await_bound, ret, record.
    destruct (bound_ainvoke llm [BindStructure structure] messages (world st))
      as [forced w]. simpl.
    eexists. split; [reflexivity|]. constructor; [|constructor].
    simpl. exists []. now rewrite app_nil_r.
  - destruct (find_structure_tool_call structure (tool_calls response))
      as [found|] eqn:F.
    + rewrite (for_range_found _ _ _ _ _ _ _ _ F). simpl.
      exists []. rewrite app_nil_r. auto.
    + destruct (for_range_pass llm structure tools messages response st F)
        as (answers & response' & w & Ha & E).
      rewrite E.
      destruct (IH (messages ++ [AI response] ++ answers) response'
                  (mkSt w (log st ++ invocations tools (tool_calls response)
                             ++ [BoundCall (all_tools structure tools)
                                   (messages ++ [AI response] ++ answers) response'])))
        as (evs & L & Hev).
      rewrite L. simpl.
      exists (invocations tools (tool_calls response)
                ++ [BoundCall (all_tools structure tools)
                      (messages ++ [AI response] ++ answers) response'] ++ evs).
      split; [now rewrite <- !app_assoc|].
      assert (Hall : forallb appended_by_loop ([AI response] ++ answers) = true)
        by (simpl; exact Ha).
      apply Forall_app. split.
      * unfold invocations. clear.
        induction (tool_calls response) as [|c calls IHc]; simpl; [constructor|].
        apply Forall_app. split; [|exact IHc].
        destruct (first_match tools c); constructor; simpl; auto.
      * constructor.
        -- simpl. exists ([AI response] ++ answers). auto.
        -- eapply Forall_impl; [|exact Hev].
           intros ev. apply extends_conversation_longer. exact Hall.
Qed.

(** The caller's conversation is never altered, reordered or cut: every
    model call of a run, structured or bound, receives the caller's
    messages as they are, followed only by model turns and tool results
    that the loop appended. *)
Theorem conversation_only_grows llm messages structure
    (tools : option (list (Tool World))) budget st :
  exists evs,
    log (snd (generate_structured_output llm messages structure tools budget st))
      = log st ++ evs
    /\ Forall (extends_conversation messages) evs.
Proof.
  destruct (Z.ltb_spec budget 1) as [Hlt|Hge].
  - unfold generate_structured_output.
    replace (budget <? 1)%Z with true by (symmetry; apply Z.ltb_lt; exact Hlt).
    simpl. exists []. rewrite app_nil_r. auto.
  - assert (S : forall t, t = None \/ t = Some [] ->
               exists evs,
                 log (snd (generate_structured_output llm messages structure t budget st))
                   = log st ++ evs
                 /\ Forall (extends_conversation messages) evs).
    { intros t Ht. rewrite (structured_path _ _ _ _ _ _ _ _ Hge Ht). simpl.
      eexists. split; [reflexivity|]. constructor; [|constructor].
      simpl. exists []. now rewrite app_nil_r. }
    destruct tools as [[|tool rest]|]; [apply S; auto| |apply S; auto].
    rewrite (generate_with_tools _ _ _ _ _ _ _ Hge). cbv zeta.
    destruct (bound_ainvoke llm (all_tools structure (tool :: rest)) messages (world st))
      as [response0 w0]. cbn [fst snd].
    destruct (for_range_extends llm structure (tool :: rest) (Z.to_nat (budget - 1))
                messages response0
                (mkSt w0 (log st ++ [BoundCall (all_tools structure (tool :: rest))
                                       messages response0])))
      as (evs & L & Hev).
    rewrite L. simpl.
    exists ([BoundCall (all_tools structure (tool :: rest)) messages response0] ++ evs).
    split; [now rewrite <- app_assoc|].
    constructor; [|exact Hev].
    simpl. exists []. now rewrite app_nil_r.
Qed.

(** ** How a run ends *)

Lemma for_range_zero_turn llm structure tools messages response st :
  exists forced,
    fst (for_range llm structure tools 0 messages response st) = Return (Turn forced).
Proof.
  simpl. unfold bind, await_bound, ret.
  destruct (bound_ainvoke llm [BindStructure structure] messages (world st))
    as [forced w].
  exists forced. reflexivity.
Qed.



Lemma for_range_stable llm structure tools n :
  forall messages response st,
  (forall forced,
      fst (for_range llm structure tools n messages response st)
        <> Return (Turn forced)) ->
  forall n', n <= n' ->
  for_range llm structure tools n' messages response st
    = for_range llm structure tools n messages response st.
Proof.
  induction n as [|n IH]; intros messages response st Hout n' Hn.
  - destruct (for_range_zero_turn llm structure tools messages response st)
      as [forced Hf].
    now apply Hout in Hf.
  - destruct n' as [|n']; [lia|].
    destruct (find_structure_tool_call structure (tool_calls response))
      as [found|] eqn:F.
    + now rewrite !(for_range_found _ _ _ _ _ _ _ _ F).
    + destruct (for_range_pass llm structure tools messages response st F)
        as (answers & response' & w & _ & E).
      rewrite !E. rewrite E in Hout. apply IH; [exact Hout|lia].
Qed.

(** A larger budget never changes a run that ended without the forced
    call: when the run with budget [budget] ends with an instance or an
    exception, the run with any larger budget from the same state has the
    same outcome and leaves the same state, log included. *)
Theorem larger_budget_same_run llm messages structure
    (tools : option (list (Tool World))) budget budget' st :
  (1 <= budget <= budget')%Z ->
  (forall forced,
      fst (generate_structured_output llm messages structure tools budget st)
        <> Return (Turn forced)) ->
  generate_structured_output llm messages structure tools budget' st
    = generate_structured_output llm messages structure tools budget st.
Proof.
  intros [Hb Hb'] Hout.
  assert (Hb1 : (1 <= budget')%Z) by lia.
  assert (S : forall t, t = None \/ t = Some [] ->
             generate_structured_output llm messages structure t budget' st
             = generate_structured_output llm messages structure t budget st).
  { intros t Ht.
    now rewrite (structured_path _ _ _ _ _ _ _ _ Hb Ht),
                (structured_path _ _ _ _ _ _ _ _ Hb1 Ht). }
  destruct tools as [[|tool rest]|]; [apply S; auto| |apply S; auto].
  rewrite (generate_with_tools _ _ _ _ _ _ _ Hb) in *.
  rewrite (generate_with_tools _ _ _ _ _ _ _ Hb1).
  cbv zeta in *.
  apply for_range_stable; [exact Hout|lia].
Qed.

(** With registered tools and a budget of one the function never looks at
    a turn: it calls the model bound to all tools, drops the turn, calls
    the model bound to the structure on the same conversation and hands
    back that second turn as it is, whatever the two turns contain. *)
Theorem budget_one_forces_at_once llm messages structure tool rest st :
  let first := bound_ainvoke llm (all_tools structure (tool :: rest)) messages
                 (world st) in
  let forced := bound_ainvoke llm [BindStructure structure] messages (snd first) in
  generate_structured_output llm messages structure (Some (tool :: rest)) 1 st
    = (Return (Turn (fst forced)),
       mkSt (snd forced)
            (log st ++ [BoundCall (all_tools structure (tool :: rest)) messages
                          (fst first);
                        BoundCall [BindStructure structure] messages (fst forced)])).
Proof.
  cbv zeta. unfold generate_structured_output. simpl.
  unfold bind, await_bound, ret, record.
  destruct (bound_ainvoke llm (all_tools structure (tool :: rest)) messages (world st))
    as [response0 w0]. simpl.
  destruct (bound_ainvoke llm [BindStructure structure] messages w0) as [forced w].
  simpl. now rewrite <- app_assoc.
Qed.

(** ** The result of a tool that returns *)


End Coverage.

(** * Further runs on explicit inputs *)

Import Irregular.

(** A budget of zero with the tool of the source registered. *)
Lemma budget_below_one_asserts_witness :
  generate_structured_output scripted conversation Rating
    (Some [collect_book_reviews]) 0 (start [turn [submit good_args "c1"]])
    = (Raise AssertionError, start [turn [submit good_args "c1"]]).
Proof.
  apply (budget_below_one_asserts World Z scripted conversation Rating
           (Some [collect_book_reviews]) 0 (start [turn [submit good_args "c1"]])).
  lia.
Defined.

(** The bound of [budget + 1] calls on a run with a budget of two. *)
Lemma model_calls_at_most_budget_plus_one_witness :
  let st := start [turn [ask_reviews "c1"]; turn [ask_reviews "c2"];
                   turn [submit good_args "c3"]] in
  exists evs,
    log (snd (generate_structured_output scripted conversation Rating
                (Some [collect_book_reviews]) 2 st)) = log st ++ evs
    /\ model_calls evs <= Z.to_nat 2 + 1.
Proof.
  cbv zeta.
  apply (model_calls_at_most_budget_plus_one World Z scripted conversation Rating
           (Some [collect_book_reviews]) 2).
  lia.
Defined.

(** The forced path with a budget of two: three calls. *)
Lemma forced_completion_calls_witness :
  let first := turn [ask_reviews "c1"] in
  let second := turn [ask_reviews "c2"] in
  let last := turn [submit good_args "c3"] in
  let events :=
    [BoundCall bound conversation first;
     ToolInvocation collect_book_reviews (ask_reviews "c1");
     BoundCall bound (with_reviews "c1") second;
     BoundCall [BindStructure Rating] (with_reviews "c1") last] in
  generate_structured_output scripted conversation Rating
    (Some [collect_book_reviews]) 2 (start [first; second; last])
    = (Return (Turn last), mkSt [] events)
  /\ model_calls events = 0 + Z.to_nat 2 + 1.
Proof.
  cbv zeta.
  apply (forced_completion_calls World Z scripted conversation Rating
           collect_book_reviews [] 2
           (start [turn [ask_reviews "c1"]; turn [ask_reviews "c2"];
                   turn [submit good_args "c3"]])
           (turn [ask_reviews "c1"])
           (mkSt [turn [ask_reviews "c2"]; turn [submit good_args "c3"]]
                 [BoundCall bound conversation (turn [ask_reviews "c1"])])
           (with_reviews "c1") (turn [ask_reviews "c2"])
           (mkSt [turn [submit good_args "c3"]]
                 [BoundCall bound conversation (turn [ask_reviews "c1"]);
                  ToolInvocation collect_book_reviews (ask_reviews "c1");
                  BoundCall bound (with_reviews "c1") (turn [ask_reviews "c2"])])).
  - lia.
  - reflexivity.
  - reflexivity.
Defined.



(** A second tool registered under the name of the first. *)
Lemma shadowed_tool_never_invoked_witness :
  for_tool_call ([collect_book_reviews] ++ impostor :: []) [ask_reviews "c1"] []
    (start [])
  = for_tool_call ([collect_book_reviews] ++ []) [ask_reviews "c1"] []
    (start []).
Proof.
  apply (shadowed_tool_never_invoked World Z [collect_book_reviews]
           collect_book_reviews impostor [] "collect_book_reviews").
  - left. reflexivity.
  - reflexivity.
  - reflexivity.
Defined.

(** An object without a name registered before the tool. *)
Lemma nameless_tool_never_invoked_witness :
  for_tool_call ([] ++ nameless :: [collect_book_reviews]) [ask_reviews "c1"] []
    (start [])
  = for_tool_call ([] ++ [collect_book_reviews]) [ask_reviews "c1"] []
    (start []).
Proof.
  apply (nameless_tool_never_invoked World Z [] nameless [collect_book_reviews]).
  reflexivity.
Defined.

(** A run that ends with an instance under a budget of three is the same
    under a budget of seven. *)
Lemma larger_budget_same_run_witness :
  let st := start [turn [ask_reviews "c1"]; turn [submit good_args "c2"]] in
  generate_structured_output scripted conversation Rating
    (Some [collect_book_reviews]) 7 st
  = generate_structured_output scripted conversation Rating
    (Some [collect_book_reviews]) 3 st.
Proof.
  cbv zeta.
  apply (larger_budget_same_run World Z scripted conversation Rating
           (Some [collect_book_reviews]) 3 7).
  - lia.
  - intros forced H. vm_compute in H. discriminate H.
Defined.


(** * Tools that raise outside [Exception] *)

Section Interruptions.

Variables (World Instance : Type).

Implicit Types (llm : ChatOpenAI World Instance) (structure : Structure Instance).
Implicit Types (tools : list (Interruptible.AnyTool World)).
Implicit Types (tool raiser : Interruptible.AnyTool World).
Implicit Types (st : St World Instance) (evs : list (Event World Instance)).
Implicit Types (messages tool_messages : list BaseMessage).
Implicit Types (response : AIMessage) (calls : list ToolCall) (tool_call : ToolCall).

(** ** One call *)

(** The three ways in which the search of lines 78-96 ends for a call
    whose tool is found: the tool returns, the tool raises an exception
    that the handler turns into a tool result, or the tool raises an
    exception outside [Exception], which goes through. *)
Lemma any_for_tool_eq tools tool_call tool_messages st :
  Interruptible.for_tool tools tool_call tool_messages st =
  match Interruptible.first_match tools tool_call with
  | None => (Normal (Return tool_messages), st)
  | Some tool =>
      match Interruptible.interrupted tool (call_args tool_call) (world st) with
      | Some (b, w) =>
          (Escaped b,
           record (ToolInvocation (Interruptible.tool_of tool) tool_call) w st)
      | None =>
          let (r, w) := ainvoke (Interruptible.tool_of tool) (call_args tool_call)
                          (world st) in
          (Normal (Return (tool_messages
                             ++ [ToolMessage (result_text r) (call_id tool_call)])),
           record (ToolInvocation (Interruptible.tool_of tool) tool_call) w st)
      end
  end.
Proof.
  unfold Interruptible.first_match.
  induction tools as [|tool rest IH]; simpl; [reflexivity|].
  destruct (tool_matches (Interruptible.tool_of tool) tool_call); [|exact IH].
  unfold Interruptible.except_Exception, Interruptible.and_then,
    Interruptible.await_any_tool, Interruptible.lift, Interruptible.unit, await_tool.
  destruct (Interruptible.interrupted tool (call_args tool_call) (world st))
    as [[b w]|]; [reflexivity|].
  destruct (ainvoke (Interruptible.tool_of tool) (call_args tool_call) (world st))
    as [[s|e] w]; reflexivity.
Qed.

(** ** The calls of a turn *)

Lemma any_for_tool_call_app tools calls calls' tool_messages st :
  Interruptible.for_tool_call tools (calls ++ calls') tool_messages st =
  match Interruptible.for_tool_call tools calls tool_messages st with
  | (Normal (Return tool_messages'), st') =>
      Interruptible.for_tool_call tools calls' tool_messages' st'
  | (Normal (Raise e), st') => (Normal (Raise e), st')
  | (Escaped b, st') => (Escaped b, st')
  end.
Proof.
  revert tool_messages st.
  induction calls as [|tool_call rest IH]; intros; simpl; [reflexivity|].
  unfold Interruptible.and_then.
  destruct (Interruptible.for_tool tools tool_call tool_messages st)
    as [[[tm|e]|b] st1]; [apply IH|reflexivity|reflexivity].
Qed.

(** The calls of a turn end in one of two ways.  Either all of them were
    run, and then only tool results were appended; or a tool raised an
    exception outside [Exception], and then the invocation of that tool,
    the first match of its call, is the last entry of the log.  An
    exception derived from [Exception] never comes out of them. *)
Lemma any_for_tool_call_ends tools calls :
  forall tool_messages st out st',
  Interruptible.for_tool_call tools calls tool_messages st = (out, st') ->
  match out with
  | Normal (Return tool_messages') =>
      exists answers evs,
        tool_messages' = tool_messages ++ answers
        /\ forallb appended_by_loop answers = true
        /\ log st' = log st ++ evs
        /\ model_calls evs = 0
  | Normal (Raise _) => False
  | Escaped b =>
      exists before raiser tool_call w,
        log st' = log st ++ before
           ++ [ToolInvocation (Interruptible.tool_of raiser) tool_call]
        /\ Interruptible.first_match tools tool_call = Some raiser
        /\ Interruptible.interrupted raiser (call_args tool_call) w
           = Some (b, world st')
  end.
Proof.
  induction calls as [|tool_call rest IH]; intros tool_messages st out st' H.
  - simpl in H. inversion H. subst.
    exists [], []. rewrite !app_nil_r. auto.
  - simpl in H. unfold Interruptible.and_then in H.
    rewrite any_for_tool_eq in H.
    destruct (Interruptible.first_match tools tool_call) as [tool|] eqn:F.
    + destruct (Interruptible.interrupted tool (call_args tool_call) (world st))
        as [[b w]|] eqn:I.
      * inversion H. subst. simpl.
        exists [], tool, tool_call, (world st). auto.
      * destruct (ainvoke (Interruptible.tool_of tool) (call_args tool_call)
                    (world st)) as [r w].
        apply IH in H.
        destruct out as [[tm|e]|b]; [|exact H|].
        -- destruct H as (answers & evs & -> & Ha & L & Hm).
           exists (ToolMessage (result_text r) (call_id tool_call) :: answers),
                  (ToolInvocation (Interruptible.tool_of tool) tool_call :: evs).
           rewrite <- app_assoc. simpl. repeat split; auto.
           rewrite L. simpl. now rewrite <- app_assoc.
        -- destruct H as (before & raiser & tc & w' & L & Fm & Hi).
           exists (ToolInvocation (Interruptible.tool_of tool) tool_call :: before),
                  raiser, tc, w'.
           repeat split; auto.
           rewrite L. simpl. now rewrite <- app_assoc.
    + apply IH in H. exact H.
Qed.

(** ** Agreement with the first embedding *)

Lemma plain_tool_of (plain_tools : list (Tool World)) :
  map Interruptible.tool_of (map Interruptible.plain plain_tools) = plain_tools.
Proof.
  induction plain_tools as [|t rest IH]; simpl; [reflexivity|]. now rewrite IH.
Qed.

Lemma plain_for_tool (plain_tools : list (Tool World)) tool_call tool_messages st :
  Interruptible.for_tool (map Interruptible.plain plain_tools) tool_call
    tool_messages st
  = Interruptible.lift (for_tool plain_tools tool_call tool_messages) st.
Proof.
  induction plain_tools as [|t rest IH]; simpl; [reflexivity|].
  unfold Interruptible.lift in *. simpl.
  destruct (tool_matches t tool_call); [|exact IH].
  unfold Interruptible.except_Exception, Interruptible.and_then,
    Interruptible.await_any_tool, Interruptible.lift, Interruptible.unit,
    try_except, bind, await_tool, ret.
  simpl.
  destruct (ainvoke t (call_args tool_call) (world st)) as [[r|e] w]; reflexivity.
Qed.

Lemma plain_for_tool_call (plain_tools : list (Tool World)) calls :
  forall tool_messages st,
  Interruptible.for_tool_call (map Interruptible.plain plain_tools) calls
    tool_messages st
  = Interruptible.lift (for_tool_call plain_tools calls tool_messages) st.
Proof.
  induction calls as [|tool_call rest IH]; intros; simpl; [reflexivity|].
  unfold Interruptible.and_then. rewrite plain_for_tool.
  unfold Interruptible.lift, bind.
  destruct (for_tool plain_tools tool_call tool_messages st) as [[tm|e] st1];
    [|reflexivity].
  rewrite IH. reflexivity.
Qed.

Lemma plain_loop_body llm structure (plain_tools : list (Tool World))
    messages response st :
  Interruptible.loop_body llm structure (map Interruptible.plain plain_tools)
    messages response st
  = Interruptible.lift (loop_body llm structure plain_tools messages response) st.
Proof.
  unfold Interruptible.loop_body, loop_body.
  destruct (find_structure_tool_call structure (tool_calls response)) as [found|].
  - destruct (dict_is_empty (call_args found)); [reflexivity|].
    unfold Interruptible.lift.
    destruct (construct structure (call_args found)); reflexivity.
  - unfold Interruptible.and_then. rewrite plain_for_tool_call, plain_tool_of.
    unfold Interruptible.lift, bind.
    destruct (for_tool_call plain_tools (tool_calls response) [] st)
      as [[tm|e] st1]; [|reflexivity].
    unfold await_bound, ret, Interruptible.unit.
    destruct (bound_ainvoke llm (all_tools structure plain_tools)
                (messages ++ [AI response] ++ tm) (world st1)); reflexivity.
Qed.

Lemma plain_for_range llm structure (plain_tools : list (Tool World)) n :
  forall messages response st,
  Interruptible.for_range llm structure (map Interruptible.plain plain_tools) n
    messages response st
  = Interruptible.lift (for_range llm structure plain_tools n messages response) st.
Proof.
  induction n as [|n IH]; intros; simpl.
  - unfold Interruptible.and_then, Interruptible.lift, bind, await_bound, ret,
      Interruptible.unit.
    destruct (bound_ainvoke llm [BindStructure structure] messages (world st));
      reflexivity.
  - unfold Interruptible.and_then. rewrite plain_loop_body.
    unfold Interruptible.lift, bind.
    destruct (loop_body llm structure plain_tools messages response st)
      as [[[v|m1 r1]|e] st1].
    + reflexivity.
    + rewrite IH. reflexivity.
    + reflexivity.
Qed.

(** On tools that no exception outside [Exception] ever cuts short, the
    function with interruptible tools is the function of the first
    embedding: same outcome, same world, same log. *)
Lemma plain_generate_structured_output llm messages structure
    (plain_tools : option (list (Tool World))) budget st :
  Interruptible.generate_structured_output llm messages structure
    (option_map (map Interruptible.plain) plain_tools) budget st
  = Interruptible.lift
      (generate_structured_output llm messages structure plain_tools budget) st.
Proof.
  unfold Interruptible.generate_structured_output, generate_structured_output.
  destruct (budget <? 1)%Z; [reflexivity|].
  assert (S : Interruptible.and_then
                (Interruptible.lift (await_structured llm structure messages))
                (fun result => Interruptible.unit (Inst result)) st
              = Interruptible.lift
                  (bind (await_structured llm structure messages)
                     (fun result => ret (Inst result))) st).
  { unfold Interruptible.and_then, Interruptible.lift, bind, await_structured, ret,
      Interruptible.unit.
    destruct (structured_ainvoke llm structure messages (world st)) as [[i|e] w];
      reflexivity. }
  destruct plain_tools as [[|t rest]|]; simpl; try exact S.
  rewrite (plain_tool_of rest).
  unfold Interruptible.and_then, Interruptible.lift, bind, await_bound.
  simpl.
  destruct (bound_ainvoke llm (all_tools structure (t :: rest)) messages (world st))
    as [response0 w0].
  exact (plain_for_range llm structure (t :: rest) _ _ _ _).
Qed.

(** ** A tool that raises *)

(** C7, as the code has it.  In a turn without a call named after the
    structure, when the registered tool of a call raises an exception
    derived from [Exception], the exception is caught: the search for the
    call ends normally with a tool result whose content is ["Error: "]
    followed by the text of the exception and whose id is that of the
    call.  When the remaining calls of the turn are run to the end, that is
    when none of their tools raises an exception outside [Exception], the
    result stands in the conversation in the place of the call and the pass
    ends in the next model client call on that conversation.  Whatever the
    tools raise, no exception derived from [Exception] ever comes out of
    the tool calls of a turn. *)
Theorem caught_exception_is_reported llm structure tools messages response st
    pre tool_call post answers_pre st_pre tool e w answers st_post :
  find_structure_tool_call structure (tool_calls response) = None ->
  tool_calls response = pre ++ tool_call :: post ->
  Interruptible.for_tool_call tools pre [] st
    = (Normal (Return answers_pre), st_pre) ->
  Interruptible.first_match tools tool_call = Some tool ->
  Interruptible.interrupted tool (call_args tool_call) (world st_pre) = None ->
  ainvoke (Interruptible.tool_of tool) (call_args tool_call) (world st_pre)
    = (Raise e, w) ->
  Interruptible.for_tool_call tools post
    (answers_pre ++ [ToolMessage ("Error: " ++ str_exc e) (call_id tool_call)])
    (record (ToolInvocation (Interruptible.tool_of tool) tool_call) w st_pre)
    = (Normal (Return answers), st_post) ->
  let report := ToolMessage ("Error: " ++ str_exc e) (call_id tool_call) in
  let messages' := messages ++ [AI response] ++ answers in
  Interruptible.for_tool tools tool_call answers_pre st_pre
    = (Normal (Return (answers_pre ++ [report])),
       record (ToolInvocation (Interruptible.tool_of tool) tool_call) w st_pre)
  /\ (exists answers_post, answers = answers_pre ++ report :: answers_post)
  /\ (exists response' st',
        await_bound llm
          (all_tools structure (map Interruptible.tool_of tools)) messages' st_post
          = (Return response', st')
        /\ Interruptible.loop_body llm structure tools messages response st
           = (Normal (Return (Continues messages' response')), st'))
  /\ (forall calls tool_messages st0 raised st1,
        Interruptible.for_tool_call tools calls tool_messages st0
          <> (Normal (Raise raised), st1)).
Proof.
  intros F Hc Epre Ft Hi Ew Epost report messages'. subst report messages'.
  assert (Et : Interruptible.for_tool tools tool_call answers_pre st_pre
               = (Normal (Return (answers_pre
                    ++ [ToolMessage ("Error: " ++ str_exc e) (call_id tool_call)])),
                  record (ToolInvocation (Interruptible.tool_of tool) tool_call)
                    w st_pre)).
  { rewrite any_for_tool_eq, Ft, Hi, Ew. reflexivity. }
  split; [exact Et|]. split; [|split].
  - apply any_for_tool_call_ends in Epost.
    destruct Epost as (answers_post & evs & -> & _).
    exists answers_post. now rewrite <- app_assoc.
  - destruct (await_bound llm
                (all_tools structure (map Interruptible.tool_of tools))
                (messages ++ [AI response] ++ answers)
                st_post) as [reply st'] eqn:A.
    assert (exists response', reply = Return response') as [response' ->].
    { unfold await_bound in A.
      destruct (bound_ainvoke llm
                  (all_tools structure (map Interruptible.tool_of tools))
                  (messages ++ [AI response] ++ answers)
                  (world st_post)).
      inversion A. eauto. }
    exists response', st'. split; [reflexivity|].
    unfold Interruptible.loop_body. rewrite F.
    unfold Interruptible.and_then at 1.
    rewrite Hc, any_for_tool_call_app, Epre. simpl.
    unfold Interruptible.and_then at 1. rewrite Et, Epost.
    unfold Interruptible.and_then, Interruptible.lift, Interruptible.unit.
    simpl in A |- *. rewrite A. reflexivity.
  - intros calls tool_messages st0 raised st1 H.
    apply any_for_tool_call_ends in H. exact H.
Qed.

(** ** How a run with tools ends *)



End Interruptions.

(** * Runs with a cancelled tool *)

Import Cancelled.

(** C7 refuted as stated.  First run: the turn has no call named after the
    structure and asks for a registered tool whose invocation raises
    [CancelledError]; the exception reaches the caller, no tool result is
    built and the model is not called again, although a second turn was
    ready.  Second run: the turn first asks for the tool that raises an
    [Exception], which is caught, and then for the cancelled tool; the
    exception of the second reaches the caller and the error result of the
    first never enters a conversation. *)
Lemma cancelled_tool_reaches_caller :
  let tools := [Interruptible.plain collect_book_reviews; slow_lookup] in
  let asked := turn [ask_slow "c1"] in
  let ready := turn [submit good_args "c2"] in
  let tools' := [Interruptible.plain always_fails; slow_lookup] in
  let asked' := turn [ask_failing "c1"; ask_slow "c2"] in
  (find_structure_tool_call Rating (tool_calls asked) = None
   /\ Interruptible.first_match tools (ask_slow "c1") = Some slow_lookup
   /\ Interruptible.generate_structured_output scripted conversation Rating
        (Some tools) 3 (start [asked; ready])
      = (Escaped CancelledError,
         mkSt [ready]
           [BoundCall (all_tools Rating (map Interruptible.tool_of tools))
              conversation asked;
            ToolInvocation (Interruptible.tool_of slow_lookup) (ask_slow "c1")]))
  /\ (find_structure_tool_call Rating (tool_calls asked') = None
      /\ Interruptible.generate_structured_output scripted conversation Rating
           (Some tools') 3 (start [asked'; ready])
         = (Escaped CancelledError,
            mkSt [ready]
              [BoundCall (all_tools Rating (map Interruptible.tool_of tools'))
                 conversation asked';
               ToolInvocation always_fails (ask_failing "c1");
               ToolInvocation (Interruptible.tool_of slow_lookup) (ask_slow "c2")])).
Proof. cbv zeta. repeat split. Qed.

(** C7 on a turn that asks for the reviews and then for the failing tool,
    with a tool registered that would be cancelled if it were asked for. *)
Lemma caught_exception_is_reported_witness :
  let tools := [Interruptible.plain collect_book_reviews;
                Interruptible.plain always_fails; slow_lookup] in
  let asked := turn [ask_reviews "c1"; ask_failing "c2"] in
  let ready := turn [submit good_args "c3"] in
  let st_pre :=
    mkSt [ready] [ToolInvocation collect_book_reviews (ask_reviews "c1")] in
  let st_post :=
    mkSt [ready] [ToolInvocation collect_book_reviews (ask_reviews "c1");
                  ToolInvocation always_fails (ask_failing "c2")] in
  let report := ToolMessage "Error: service unavailable" "c2" in
  let answers := [ToolMessage reviews "c1"; report] in
  let messages' := conversation ++ [AI asked] ++ answers in
  Interruptible.for_tool tools (ask_failing "c2") [ToolMessage reviews "c1"] st_pre
    = (Normal (Return ([ToolMessage reviews "c1"] ++ [report])), st_post)
  /\ (exists answers_post,
         answers = [ToolMessage reviews "c1"] ++ report :: answers_post)
  /\ (exists response' st',
        await_bound scripted
          (all_tools Rating (map Interruptible.tool_of tools)) messages' st_post
          = (Return response', st')
        /\ Interruptible.loop_body scripted Rating tools conversation asked
             (start [ready])
           = (Normal (Return (Continues messages' response')), st'))
  /\ (forall calls tool_messages (st0 : St World Z) raised (st1 : St World Z),
        Interruptible.for_tool_call tools calls tool_messages st0
          <> (Normal (Raise raised), st1)).
Proof.
  cbv zeta.
  apply (caught_exception_is_reported World Z scripted Rating
           [Interruptible.plain collect_book_reviews;
            Interruptible.plain always_fails; slow_lookup]
           conversation (turn [ask_reviews "c1"; ask_failing "c2"])
           (start [turn [submit good_args "c3"]])
           [ask_reviews "c1"] (ask_failing "c2") []
           [ToolMessage reviews "c1"]
           (mkSt [turn [submit good_args "c3"]]
                 [ToolInvocation collect_book_reviews (ask_reviews "c1")])
           (Interruptible.plain always_fails) (Exception "service unavailable")
           [turn [submit good_args "c3"]]
           [ToolMessage reviews "c1";
            ToolMessage "Error: service unavailable" "c2"]
           (mkSt [turn [submit good_args "c3"]]
                 [ToolInvocation collect_book_reviews (ask_reviews "c1");
                  ToolInvocation always_fails (ask_failing "c2")])).
  - reflexivity.
  - reflexivity.
  - reflexivity.
  - reflexivity.
  - reflexivity.
  - reflexivity.
  - reflexivity.
Defined.

